(** * bot-get-tickets-qa-v2.py: a shallow embedding in Rocq

    The script polls an Azure DevOps board column and posts one Slack
    message per newly observed work item.  This file embeds the pieces the
    specification talks about:
    - the HTTP helper [_request] (status check, empty body, JSON decoding);
    - the name lookups [get_board_id_by_name] / [get_column_id_by_name];
    - the WIQL area-scope builder [get_team_area_predicate];
    - the [__main__] poll loop with its [seen_ids] set, [post_to_slack],
      the per-cycle [try]/[except] and the [time.sleep] after it.

    Remote services are inputs: every HTTP call is an argument (or a field
    of an [Env] record) giving what the server answers.  Python exceptions
    are the values of [Exc]; code that may raise returns [Exc + A]. *)

From Stdlib Require Import ZArith Lia Ascii String.
Set Warnings "-register-all".
From stdpp Require Import base list gmap sets strings pretty.

Open Scope Z_scope.

(* ================================================================== *)
(** ** Python values and exceptions *)

(** JSON as decoded by [resp.json()] (numbers restricted to integers:
    the fields the script reads are ids, strings, booleans and objects). *)
Inductive Json : Type :=
| JNull
| JBool (b : bool)
| JNum (z : Z)
| JStr (s : string)
| JArr (l : list Json)
| JObj (kvs : list (string * Json)).

(** [d.get(k)] on a decoded JSON object; a key repeated in the text keeps
    its last value, as [json.loads] does. *)
Fixpoint dict_lookup (k : string) (kvs : list (string * Json)) : option Json :=
  match kvs with
  | [] => None
  | (k', v) :: t =>
      match dict_lookup k t with
      | Some v' => Some v'
      | None => if String.eqb k k' then Some v else None
      end
  end.

(** An HTTP response of the [requests] library: status and raw body. *)
Record Response := mkResponse { status_code : Z; content : string }.

(** The exceptions the script can meet.  [HTTPError] is what
    [raise_for_status] raises; it carries the whole response. *)
Inductive Exc : Type :=
| HTTPError (resp : Response)
| JSONDecodeError
| KeyError (key : string)
| TypeError
| AttributeError
| Timeout
| ConnectionError
| RuntimeError (msg : string).

(** ** [repr] and [str] of Python values (ASCII text) *)

Definition chr (n : nat) : Ascii.ascii := Ascii.ascii_of_nat n.
Definition squote : Ascii.ascii := chr 39.
Definition dquote : Ascii.ascii := chr 34.
Definition bslash : Ascii.ascii := chr 92.

Fixpoint has_char (c : Ascii.ascii) (s : string) : bool :=
  match s with
  | EmptyString => false
  | String c' t => Ascii.eqb c c' || has_char c t
  end.

Definition hex_digit (n : nat) : Ascii.ascii :=
  if Nat.ltb n 10 then chr (48 + n) else chr (87 + n).

(** One character of [repr(s)] when [q] is the chosen quote. *)
Definition repr_char (q c : Ascii.ascii) : string :=
  let n := Ascii.nat_of_ascii c in
  if Ascii.eqb c bslash then String bslash (String bslash EmptyString)
  else if Ascii.eqb c q then String bslash (String q EmptyString)
  else if Nat.eqb n 9 then String bslash (String "t"%char EmptyString)
  else if Nat.eqb n 10 then String bslash (String "n"%char EmptyString)
  else if Nat.eqb n 13 then String bslash (String "r"%char EmptyString)
  else if Nat.ltb n 32 || Nat.eqb n 127 then
    String bslash (String "x"%char
      (String (hex_digit (Nat.div n 16)) (String (hex_digit (Nat.modulo n 16)) EmptyString)))
  else String c EmptyString.

Fixpoint repr_body (q : Ascii.ascii) (s : string) : string :=
  match s with
  | EmptyString => EmptyString
  | String c t => repr_char q c +:+ repr_body q t
  end.

(** [repr(s)]: single quotes, unless [s] contains a single quote and no
    double quote. *)
Definition py_repr_str (s : string) : string :=
  let q := if has_char squote s && negb (has_char dquote s) then dquote else squote in
  String q (repr_body q s +:+ String q EmptyString).

(** [sep.join(parts)] *)
Fixpoint py_join (sep : string) (parts : list string) : string :=
  match parts with
  | [] => ""
  | [p] => p
  | p :: t => p +:+ sep +:+ py_join sep t
  end.

(** [repr] of a decoded JSON value, i.e. of the Python object. *)
Fixpoint py_repr (j : Json) : string :=
  match j with
  | JNull => "None"
  | JBool true => "True"
  | JBool false => "False"
  | JNum z => pretty z
  | JStr s => py_repr_str s
  | JArr l => "[" +:+ py_join ", " (map py_repr l) +:+ "]"
  | JObj kvs =>
      "{" +:+ py_join ", " (map (fun kv => py_repr_str kv.1 +:+ ": " +:+ py_repr kv.2) kvs)
          +:+ "}"
  end.

(** [str(x)], as an f-string substitutes it. *)
Definition py_str (j : Json) : string :=
  match j with
  | JStr s => s
  | _ => py_repr j
  end.

(** [repr] of a list whose elements are [str] or [None]. *)
Definition py_repr_opt_str (o : option string) : string :=
  match o with
  | Some s => py_repr_str s
  | None => "None"
  end.

Definition py_repr_list (l : list (option string)) : string :=
  "[" +:+ py_join ", " (map py_repr_opt_str l) +:+ "]".

(* ================================================================== *)
(** ** Configuration *)

Definition AZURE_ORG : string := "WFRD-RDE-DWC-Software".
Definition AZURE_PROJ : string := "OmniStack".
Definition TEAM_NAME : string := "WASP".
Definition BOARD_NAME : string := "Stories".
Definition COLUMN_NAME : string := "Ready for QA".
Definition POLL_INTERVAL : Z := 120.

(* ================================================================== *)
(** ** Team area scope: [get_team_area_predicate] *)

(** One entry of the team field values: [v.get("value")] and
    [v.get("includeChildren")], [None] when the key is absent or null. *)
Record TeamFieldValue := mkTFV {
  tfv_value : option string;
  tfv_includeChildren : option bool }.

(** The decoded [teamfieldvalues] answer: [data.get("values")]. *)
Record TeamSettings := mkTeamSettings { ts_values : option (list TeamFieldValue) }.

(** Python's [not path] for [path = v.get("value")]: [None] or [""]. *)
Definition path_falsy (p : option string) : bool :=
  match p with
  | None => true
  | Some s => String.eqb s ""
  end.

Definition project_fallback : string :=
  "[System.TeamProject] = '" +:+ AZURE_PROJ +:+ "'".

(** The [for v in values] loop, building [parts]. *)
Fixpoint area_parts (values : list TeamFieldValue) : list string :=
  match values with
  | [] => []
  | v :: t =>
      let path := tfv_value v in
      let include_children := default false (tfv_includeChildren v) in
      if path_falsy path then area_parts t
      else
        let p := default "" path in
        if include_children
        then ("[System.AreaPath] UNDER '" +:+ p +:+ "'") :: area_parts t
        else ("[System.AreaPath] = '" +:+ p +:+ "'") :: area_parts t
  end.

(** [get_team_area_predicate], after the [teamfieldvalues] GET. *)
Definition get_team_area_predicate (data : TeamSettings) : string :=
  let values := default [] (ts_values data) in
  match values with
  | [] => project_fallback
  | _ =>
      let parts := area_parts values in
      match parts with
      | [] => project_fallback
      | _ => "(" +:+ py_join " OR " parts +:+ ")"
      end
  end.

(* ================================================================== *)
(** ** HTTP helper: [_request] *)

(** [path.lstrip('/')] *)
Fixpoint lstrip_slash (s : string) : string :=
  match s with
  | String c t => if Ascii.eqb c "/"%char then lstrip_slash t else s
  | EmptyString => EmptyString
  end.

(** [requests]' [raise_for_status]: 4xx is a client error, 5xx a server
    error; any other status passes. *)
Definition raise_for_status (resp : Response) : Exc + unit :=
  let s := status_code resp in
  if (400 <=? s) && (s <? 500) then inl (HTTPError resp)
  else if (500 <=? s) && (s <? 600) then inl (HTTPError resp)
  else inr tt.

(** [url = f"{base}/{path.lstrip('/')}"] with [base = f"https://dev.azure.com/{AZURE_ORG}"] *)
Definition request_url (path : string) : string :=
  let base := "https://dev.azure.com/" +:+ AZURE_ORG in
  base +:+ "/" +:+ lstrip_slash path.

(** [_request method path]: [send method url] is what
    [requests.request(method, url, ...)] gives (a response, or a network
    exception), [json_loads] is [resp.json()] on the body. *)
Definition _request (send : string -> string -> Exc + Response)
    (json_loads : string -> Exc + Json) (method path : string) : Exc + Json :=
  match send method (request_url path) with
  | inl e => inl e
  | inr resp =>
      match raise_for_status resp with
      | inl e => inl e
      | inr _ =>
          if negb (String.eqb (content resp) "") then json_loads (content resp)
          else inr (JObj [])
      end
  end.

(* ================================================================== *)
(** ** Board and column lookup *)

(** A board or column of the [value] list: [b["id"]] and [b.get("name")]. *)
Record Entry := mkEntry { e_id : Json; e_name : option string }.

(** The generator in [next((b for b in boards if b.get("name") == name), None)]. *)
Definition name_matches (wanted : string) (b : Entry) : bool :=
  match e_name b with
  | Some n => String.eqb n wanted
  | None => false
  end.

(** [get_board_id_by_name project team board_name], where [boards] is what
    [get_team_boards project team] returned. *)
Definition get_board_id_by_name (boards : list Entry) (team board_name : string)
    : Exc + (Json * string) :=
  match find (name_matches board_name) boards with
  | Some board => inr (e_id board, default "" (e_name board))
  | None =>
      inl (RuntimeError ("Board '" +:+ board_name +:+ "' not found for team '" +:+ team
             +:+ "'. Available: " +:+ py_repr_list (map e_name boards)))
  end.

(** [get_column_id_by_name project team board_id column_name], where [cols]
    is what [get_board_columns project team board_id] returned. *)
Definition get_column_id_by_name (cols : list Entry) (board_id : Json) (column_name : string)
    : Exc + (Json * string) :=
  match find (name_matches column_name) cols with
  | Some col => inr (e_id col, default "" (e_name col))
  | None =>
      inl (RuntimeError ("Column '" +:+ column_name +:+ "' not found on board id "
             +:+ py_str board_id +:+ ". Available: " +:+ py_repr_list (map e_name cols)))
  end.

(* ================================================================== *)
(** ** The poll loop *)

(** Observable steps of the loop.  [EvSeenAdd] marks [seen_ids.add(wid)]
    and [EvNotify] the call [post_to_slack(...)] made for [wid]; the others
    are the HTTP calls, the two [print]s and [time.sleep]. *)
Inductive Event : Type :=
| EvQuery (wiql : string)
| EvSeenAdd (wid : Z)
| EvFetch (wid : Z)
| EvNotify (wid : Z)
| EvSlackPost (text : string)
| EvWarn (e : Exc)
| EvError (e : Exc)
| EvSleep (secs : Z).

(** The module-level [seen_ids] and the output so far. *)
Record St := mkSt { seen_ids : gset Z; out : list Event }.

(** Python's own effects: the state survives an exception. *)
Definition M (A : Type) : Type := St -> St * (Exc + A).

Global Instance M_ret : MRet M := fun A a s => (s, inr a).
Global Instance M_bind : MBind M := fun A B k m s =>
  match m s with
  | (s', inl e) => (s', inl e)
  | (s', inr a) => k a s'
  end.

Definition lift {A} (r : Exc + A) : M A := fun s => (s, r).
Definition emit (ev : Event) : M unit :=
  fun s => (mkSt (seen_ids s) (out s ++ [ev]), inr tt).
Definition get_seen : M (gset Z) := fun s => (s, inr (seen_ids s)).
Definition add_seen (wid : Z) : M unit :=
  fun s => (mkSt ({[wid]} ∪ seen_ids s) (out s ++ [EvSeenAdd wid]), inr tt).

(** [try: m except Exception as e: h(e)] *)
Definition try_except {A} (m : M A) (h : Exc -> M A) : M A :=
  fun s =>
    match m s with
    | (s', inl e) => h e s'
    | r => r
    end.

(** [for x in l: f(x)] *)
Fixpoint for_ {A} (l : list A) (f : A -> M unit) : M unit :=
  match l with
  | [] => mret tt
  | x :: t => f x ;; for_ t f
  end.

(** What [requests.post] does with the Slack webhook. *)
Inductive PostOutcome : Type :=
| Raised (e : Exc)
| Responded (resp : Response).

(** The remote side of one cycle: the WIQL POST ([azure_post] then
    [itm["id"]] of each of [res.get("workItems", [])]), the work item GET
    ([azure_get]), and the webhook. *)
Record Env := mkEnv {
  env_wiql : string -> Exc + list Z;
  env_work_item : Z -> Exc + Json;
  env_slack : string -> PostOutcome }.

(** [d[k]] *)
Definition getitem (d : Json) (k : string) : Exc + Json :=
  match d with
  | JObj kvs =>
      match dict_lookup k kvs with
      | Some v => inr v
      | None => inl (KeyError k)
      end
  | _ => inl TypeError
  end.

(** [d.get(k)] *)
Definition dict_get (d : Json) (k : string) : Exc + Json :=
  match d with
  | JObj kvs => inr (default JNull (dict_lookup k kvs))
  | _ => inl AttributeError
  end.

Definition wiql_text (project column_name team_area_predicate : string) : string :=
  "SELECT [System.Id], [System.Title] " +:+ "FROM workitems "
  +:+ "WHERE [System.TeamProject] = '" +:+ project +:+ "' "
  +:+ "AND [System.BoardColumn] = '" +:+ column_name +:+ "' "
  +:+ "AND " +:+ team_area_predicate.

Definition query_items_in_board_column (env : Env)
    (project column_name team_area_predicate : string) : M (list Z) :=
  let q := wiql_text project column_name team_area_predicate in
  emit (EvQuery q) ;; lift (env_wiql env q).

Definition get_work_item (env : Env) (project : string) (wid : Z) : M Json :=
  emit (EvFetch wid) ;; lift (env_work_item env wid).

(** [post_to_slack(text)]: the [except Exception] prints a warning. *)
Definition post_to_slack (env : Env) (text : string) : M unit :=
  emit (EvSlackPost text) ;;
  match env_slack env text with
  | Raised e => emit (EvWarn e)
  | Responded _ => mret tt
  end.

Definition slack_text (wid : Z) (title url : string) : string :=
  ":excitedstar: *[" +:+ TEAM_NAME +:+ " · " +:+ BOARD_NAME
  +:+ "] Ticket ready for testing:* " +:+ "<" +:+ url +:+ "|#" +:+ pretty wid
  +:+ " – " +:+ title +:+ ">".

(** The body of [for itm in items:] *)
Definition process_item (env : Env) (wid : Z) : M unit :=
  seen ← get_seen;
  if decide (wid ∈ seen) then mret tt else (
  add_seen wid ;;
  details ← get_work_item env AZURE_PROJ wid;
  fields ← lift (getitem details "fields");
  title ← lift (dict_get fields "System.Title");
  links ← lift (getitem details "_links");
  html ← lift (getitem links "html");
  url ← lift (getitem html "href");
  emit (EvNotify wid) ;;
  post_to_slack env (slack_text wid (py_str title) (py_str url))).

(** The [try] block of one iteration of [while True]. *)
Definition poll_body (env : Env) (area_predicate : string) : M unit :=
  items ← query_items_in_board_column env AZURE_PROJ COLUMN_NAME area_predicate;
  for_ items (process_item env).

(** One iteration of [while True]: [try]/[except], then [time.sleep]. *)
Definition poll_cycle (env : Env) (area_predicate : string) : M unit :=
  try_except (poll_body env area_predicate) (fun e => emit (EvError e)) ;;
  emit (EvSleep POLL_INTERVAL).

(** The first [length envs] iterations of [while True]. *)
Definition poll_loop (area_predicate : string) (envs : list Env) : M unit :=
  for_ envs (fun env => poll_cycle env area_predicate).

(* ================================================================== *)
(** ** Concrete inputs used by the examples *)

Definition scn_url (wid : Z) : string :=
  "https://dev.azure.com/" +:+ AZURE_ORG +:+ "/" +:+ AZURE_PROJ +:+ "/_workitems/edit/" +:+ pretty wid.

(** The work item GET answer for [wid]. *)
Definition scn_details (wid : Z) : Json :=
  JObj [("id", JNum wid);
        ("fields", JObj [("System.Title", JStr "Login fails")]);
        ("_links", JObj [("html", JObj [("href", JStr (scn_url wid))])])].

(** The WIQL query returns items 101 and 102; every GET succeeds; the
    webhook behaves as [slack]. *)
Definition scn_env (slack : PostOutcome) : Env :=
  mkEnv (fun _ => inr [101; 102]) (fun wid => inr (scn_details wid)) (fun _ => slack).

Definition scn_ok : PostOutcome := Responded (mkResponse 200 "ok").

Definition scn_pred : string :=
  get_team_area_predicate (mkTeamSettings (Some [mkTFV (Some "OmniStack\WASP") (Some true)])).

Definition scn_query : string := wiql_text AZURE_PROJ COLUMN_NAME scn_pred.

Definition scn_text (wid : Z) : string := slack_text wid "Login fails" (scn_url wid).

(** The WIQL query returns items 102, 7 and 103; the work item GET for
    item 7 answers 404; the other items are as in [scn_details]. *)
Definition scn_env_fetch_fails : Env :=
  mkEnv (fun _ => inr [102; 7; 103])
        (fun wid => if Z.eqb wid 7 then inl (HTTPError (mkResponse 404 "")) else inr (scn_details wid))
        (fun _ => scn_ok).

(** A work item whose [fields] has no [System.Title]. *)
Definition scn_untitled (wid : Z) : Json :=
  JObj [("id", JNum wid); ("fields", JObj []);
        ("_links", JObj [("html", JObj [("href", JStr (scn_url wid))])])].

(** Startup answers: the boards, the columns of board "b-1", the team
    field values; [boot_send] answers each GET with a body that
    [boot_json_loads] decodes. *)
Definition boot_boards : Json :=
  JObj [("count", JNum 2);
        ("value", JArr [JObj [("id", JStr "b-0"); ("name", JStr "Epics")];
                        JObj [("id", JStr "b-1"); ("name", JStr "Stories")]])].

Definition boot_columns : Json :=
  JObj [("value", JArr [JObj [("id", JStr "c-1"); ("name", JStr "New")];
                        JObj [("id", JStr "c-9"); ("name", JStr "Ready for QA")]])].

Definition boot_settings : Json :=
  JObj [("values", JArr [JObj [("value", JStr "OmniStack\WASP"); ("includeChildren", JBool true)]])].

Definition boot_send (method url : string) : Exc + Response :=
  if String.eqb url "https://dev.azure.com/WFRD-RDE-DWC-Software/OmniStack/WASP/_apis/work/boards"
  then inr (mkResponse 200 "boards")
  else if String.eqb url
    "https://dev.azure.com/WFRD-RDE-DWC-Software/OmniStack/WASP/_apis/work/boards/b-1/columns"
  then inr (mkResponse 200 "columns")
  else inr (mkResponse 200 "settings").

Definition boot_json_loads (body : string) : Exc + Json :=
  if String.eqb body "boards" then inr boot_boards
  else if String.eqb body "columns" then inr boot_columns
  else if String.eqb body "settings" then inr boot_settings
  else inl JSONDecodeError.

(* ================================================================== *)
(** ** Vocabulary of the statements *)

(** Spec side (4.3): the clause emitted for one configured path. *)
Definition spec_area_clause (include_descendants : bool) (path : string) : string :=
  if include_descendants then "[System.AreaPath] UNDER '" +:+ path +:+ "'"
  else "[System.AreaPath] = '" +:+ path +:+ "'".

(** An entry with a usable path: [not path] is false. *)
Definition usable (v : TeamFieldValue) : bool := negb (path_falsy (tfv_value v)).

(** Spec side (section 2: the client "raises on non-2xx responses"). *)
Definition http_success (s : Z) : bool := (200 <=? s) && (s <? 300).

(** Spec side (4.5): the webhook post did not deliver the message. *)
Definition delivery_failed (o : PostOutcome) : bool :=
  match o with
  | Raised _ => true
  | Responded resp => negb (http_success (status_code resp))
  end.

(** In the trace [tr], every occurrence of [b] comes after some [a]. *)
Definition precedes (a b : Event) (tr : list Event) : Prop :=
  forall pre post, tr = pre ++ b :: post -> In a pre.

(** How many times [post_to_slack] was called for [w] in [tr]. *)
Fixpoint notifications (w : Z) (tr : list Event) : nat :=
  match tr with
  | [] => 0%nat
  | EvNotify w' :: t => ((if Z.eqb w w' then 1 else 0) + notifications w t)%nat
  | _ :: t => notifications w t
  end.

(** Events that neither touch [seen_ids] nor concern a single item. *)
Definition neutral (ev : Event) : Prop :=
  match ev with
  | EvSeenAdd _ | EvFetch _ | EvNotify _ => False
  | _ => True
  end.

(** What [process_item] appends after [seen_ids.add(wid)] and the GET. *)
Definition item_tail (wid : Z) (tail : list Event) : Prop :=
  tail = [] \/
  exists text, tail = [EvNotify wid; EvSlackPost text] \/
               (exists e, tail = [EvNotify wid; EvSlackPost text; EvWarn e]).

(** The loop invariant, for a run started in [st0] with [seen_ids = seen0]:
    [tr] is the output since then. *)
Definition Inv (seen0 : gset Z) (st0 st : St) : Prop :=
  seen0 ⊆ seen_ids st /\
  exists tr, out st = out st0 ++ tr /\
    (forall w, w ∈ seen0 ->
       ~ In (EvFetch w) tr /\ ~ In (EvSeenAdd w) tr /\ ~ In (EvNotify w) tr) /\
    (forall w, precedes (EvSeenAdd w) (EvNotify w) tr /\
               precedes (EvSeenAdd w) (EvFetch w) tr) /\
    (forall w, (notifications w tr <= 1)%nat /\
               (notifications w tr = 1%nat -> w ∈ seen_ids st)).

(** In [tr], between any two WIQL queries there is a [time.sleep(POLL_INTERVAL)]. *)
Definition sleep_between (tr : list Event) : Prop :=
  forall pre mid post q1 q2,
    tr = pre ++ EvQuery q1 :: mid ++ EvQuery q2 :: post ->
    In (EvSleep POLL_INTERVAL) mid.

(* ================================================================== *)
(** ** Startup on decoded JSON: the HTTP wrappers, the lookups, [__main__]

    The lookups above take the entries already read; here the same
    functions are embedded on the decoded JSON answers, with every Python
    step that can raise on an unexpected shape, and [__main__]'s startup
    records the requests it makes and the lines it prints. *)

(** Python truthiness [bool(x)] of a decoded value. *)
Definition py_truthy (j : Json) : bool :=
  match j with
  | JNull => false
  | JBool b => b
  | JNum z => negb (Z.eqb z 0)
  | JStr s => negb (String.eqb s "")
  | JArr l => match l with [] => false | _ => true end
  | JObj kvs => match kvs with [] => false | _ => true end
  end.

(** [x is not None and bool(x)] for the result of [next(..., None)]. *)
Definition py_truthy_opt (o : option Json) : bool :=
  match o with
  | Some j => py_truthy j
  | None => false
  end.

(** The keys of a decoded dict in iteration order: a key repeated in the
    text keeps the place of its first occurrence. *)
Fixpoint dict_keys (seen : list string) (kvs : list (string * Json)) : list string :=
  match kvs with
  | [] => []
  | (k, _) :: t =>
      if existsb (String.eqb k) seen then dict_keys seen t
      else k :: dict_keys (k :: seen) t
  end.

(** The one-character strings of [s] (here bytes; the elements only ever
    reach [.get], which raises on any of them). *)
Fixpoint str_chars (s : string) : list Json :=
  match s with
  | EmptyString => []
  | String c t => JStr (String c EmptyString) :: str_chars t
  end.

(** [for x in j]: a list gives its elements, a dict its keys, a string its
    characters; [None], booleans and numbers are not iterable. *)
Definition py_iter (j : Json) : Exc + list Json :=
  match j with
  | JArr l => inr l
  | JObj kvs => inr (map JStr (dict_keys [] kvs))
  | JStr s => inr (str_chars s)
  | _ => inl TypeError
  end.

(** [d.get(k, dflt)] *)
Definition dict_get_or (d : Json) (k : string) (dflt : Json) : Exc + Json :=
  match d with
  | JObj kvs => inr (default dflt (dict_lookup k kvs))
  | _ => inl AttributeError
  end.

(** [x == s] for a decoded value [x] and a [str] [s]. *)
Definition json_eq_str (j : Json) (s : string) : bool :=
  match j with
  | JStr s' => String.eqb s' s
  | _ => false
  end.

(** Code that may raise and has no other effect. *)
Global Instance Exc_ret : MRet (sum Exc) := fun A a => inr a.
Global Instance Exc_bind : MBind (sum Exc) := fun A B k m =>
  match m with
  | inl e => inl e
  | inr a => k a
  end.

(** [next((b for b in l if b.get("name") == name), None)]: the first entry
    named [name]; the entries after it are never looked at. *)
Fixpoint next_named (name : string) (l : list Json) : Exc + option Json :=
  match l with
  | [] => inr None
  | b :: t =>
      match dict_get b "name" with
      | inl e => inl e
      | inr n => if json_eq_str n name then inr (Some b) else next_named name t
      end
  end.

(** [[b.get('name') for b in l]] *)
Fixpoint names_of (l : list Json) : Exc + list Json :=
  match l with
  | [] => inr []
  | b :: t =>
      match dict_get b "name" with
      | inl e => inl e
      | inr n =>
          match names_of t with
          | inl e => inl e
          | inr ns => inr (n :: ns)
          end
      end
  end.

(** The body of [get_board_id_by_name] after [boards = get_team_boards(...)]. *)
Definition pick_board (boards : Json) (team board_name : string) : Exc + (Json * Json) :=
  l ← py_iter boards;
  board ← next_named board_name l;
  if negb (py_truthy_opt board) then
    names ← names_of l;
    inl (RuntimeError ("Board '" +:+ board_name +:+ "' not found for team '" +:+ team
           +:+ "'. Available: " +:+ py_repr (JArr names)))
  else
    let b := default JNull board in
    id ← getitem b "id";
    nm ← getitem b "name";
    inr (id, nm).

(** The body of [get_column_id_by_name] after [cols = get_board_columns(...)]. *)
Definition pick_column (cols : Json) (board_id : Json) (column_name : string)
    : Exc + (Json * Json) :=
  l ← py_iter cols;
  col ← next_named column_name l;
  if negb (py_truthy_opt col) then
    names ← names_of l;
    inl (RuntimeError ("Column '" +:+ column_name +:+ "' not found on board id "
           +:+ py_str board_id +:+ ". Available: " +:+ py_repr (JArr names)))
  else
    let c := default JNull col in
    id ← getitem c "id";
    nm ← getitem c "name";
    inr (id, nm).

(** The [for v in values] loop of [get_team_area_predicate] on the decoded
    entries; [f"...'{path}'"] formats [path] with [str]. *)
Fixpoint area_parts_j (values : list Json) : Exc + list string :=
  match values with
  | [] => inr []
  | v :: t =>
      match dict_get v "value" with
      | inl e => inl e
      | inr path =>
          match dict_get_or v "includeChildren" (JBool false) with
          | inl e => inl e
          | inr include_children =>
              if negb (py_truthy path) then area_parts_j t
              else
                match area_parts_j t with
                | inl e => inl e
                | inr parts =>
                    inr ((if py_truthy include_children
                          then "[System.AreaPath] UNDER '" +:+ py_str path +:+ "'"
                          else "[System.AreaPath] = '" +:+ py_str path +:+ "'") :: parts)
                end
          end
      end
  end.

(** The body of [get_team_area_predicate] after the [teamfieldvalues] GET. *)
Definition area_predicate_of (data : Json) : Exc + string :=
  values ← dict_get_or data "values" (JArr []);
  if negb (py_truthy values) then inr project_fallback
  else
    l ← py_iter values;
    parts ← area_parts_j l;
    match parts with
    | [] => inr project_fallback
    | _ => inr ("(" +:+ py_join " OR " parts +:+ ")")
    end.

(** What startup does that can be seen: HTTP requests and printed lines. *)
Inductive BootEv : Type :=
| BReq (method url : string)
| BPrint (line : string).

(** Startup code: the requests and prints so far, and an exception or a value. *)
Definition BM (A : Type) : Type := list BootEv -> list BootEv * (Exc + A).

Global Instance BM_ret : MRet BM := fun A a log => (log, inr a).
Global Instance BM_bind : MBind BM := fun A B k m log =>
  match m log with
  | (log', inl e) => (log', inl e)
  | (log', inr a) => k a log'
  end.

Definition blift {A} (r : Exc + A) : BM A := fun log => (log, r).

(** [print(line)] *)
Definition bprint (line : string) : BM unit := fun log => (log ++ [BPrint line], inr tt).

Module Startup.

(** [_request(method, path, ...)]: one [requests.request] to [request_url path]. *)
Definition request (send : string -> string -> Exc + Response)
    (json_loads : string -> Exc + Json) (method path : string) : BM Json :=
  fun log => (log ++ [BReq method (request_url path)], _request send json_loads method path).

Definition azure_get send json_loads (path : string) : BM Json :=
  request send json_loads "GET" path.

(** Used by [query_items_in_board_column], whose answer the loop takes from
    [env_wiql]. *)
Definition azure_post send json_loads (path : string) : BM Json :=
  request send json_loads "POST" path.

Definition get_team_boards send json_loads (project team : string) : BM Json :=
  data ← azure_get send json_loads (project +:+ "/" +:+ team +:+ "/_apis/work/boards");
  blift (dict_get_or data "value" (JArr [])).

Definition get_board_id_by_name send json_loads (project team board_name : string)
    : BM (Json * Json) :=
  boards ← get_team_boards send json_loads project team;
  blift (pick_board boards team board_name).

Definition get_board_columns send json_loads (project team : string) (board_id : Json)
    : BM Json :=
  data ← azure_get send json_loads
           (project +:+ "/" +:+ team +:+ "/_apis/work/boards/" +:+ py_str board_id
              +:+ "/columns");
  blift (dict_get_or data "value" (JArr [])).

Definition get_column_id_by_name send json_loads (project team : string) (board_id : Json)
    (column_name : string) : BM (Json * Json) :=
  cols ← get_board_columns send json_loads project team board_id;
  blift (pick_column cols board_id column_name).

Definition get_team_area_predicate send json_loads (project team : string) : BM string :=
  data ← azure_get send json_loads
           (project +:+ "/" +:+ team +:+ "/_apis/work/teamsettings/teamfieldvalues");
  blift (area_predicate_of data).

(** [__main__] up to [while True]; it gives the area predicate. *)
Definition main_startup send json_loads : BM string :=
  '(board_id, resolved_board_name) ←
     get_board_id_by_name send json_loads AZURE_PROJ TEAM_NAME BOARD_NAME;
  '(column_id, resolved_col_name) ←
     get_column_id_by_name send json_loads AZURE_PROJ TEAM_NAME board_id COLUMN_NAME;
  bprint ("Monitoring Org='" +:+ AZURE_ORG +:+ "', Project='" +:+ AZURE_PROJ
            +:+ "', Team='" +:+ TEAM_NAME +:+ "'") ;;
  bprint ("Board='" +:+ py_str resolved_board_name +:+ "' (id=" +:+ py_str board_id
            +:+ "), Column='" +:+ py_str resolved_col_name +:+ "'") ;;
  area_predicate ← get_team_area_predicate send json_loads AZURE_PROJ TEAM_NAME;
  bprint ("Area predicate: " +:+ area_predicate) ;;
  mret area_predicate.

(** [__main__]: startup, then the first [length envs] cycles of the loop,
    from the empty [seen_ids]. *)
Definition main send json_loads (envs : list Env) : list BootEv * (Exc + St) :=
  match main_startup send json_loads [] with
  | (log, inl e) => (log, inl e)
  | (log, inr area_predicate) =>
      (log, inr (fst (poll_loop area_predicate envs (mkSt ∅ []))))
  end.

End Startup.

(** The decoded form of a board or column entry ([name] absent when [None]). *)
Definition entry_to_json (b : Entry) : Json :=
  JObj ([("id", e_id b)] ++
        match e_name b with Some n => [("name", JStr n)] | None => [] end).

(** The decoded form of a team field value and of the settings answer. *)
Definition tfv_to_json (v : TeamFieldValue) : Json :=
  JObj ((match tfv_value v with Some s => [("value", JStr s)] | None => [] end) ++
        (match tfv_includeChildren v with
         | Some b => [("includeChildren", JBool b)] | None => [] end)).

Definition ts_to_json (ts : TeamSettings) : Json :=
  JObj (match ts_values ts with
        | Some l => [("values", JArr (map tfv_to_json l))]
        | None => [] end).

(** A dict whose [name] is not [name]. *)
Definition named_other (name : string) (x : Json) : bool :=
  match x with
  | JObj kvs => negb (json_eq_str (default JNull (dict_lookup "name" kvs)) name)
  | _ => false
  end.

(** A dict. *)
Definition is_obj (x : Json) : bool :=
  match x with JObj _ => true | _ => false end.

(** A team field value that is a dict with no usable [value]. *)
Definition unusable_j (v : Json) : bool :=
  match v with
  | JObj kvs => negb (py_truthy (default JNull (dict_lookup "value" kvs)))
  | _ => false
  end.

Definition boards_path : string := AZURE_PROJ +:+ "/" +:+ TEAM_NAME +:+ "/_apis/work/boards".

Definition columns_path (board_id : Json) : string :=
  AZURE_PROJ +:+ "/" +:+ TEAM_NAME +:+ "/_apis/work/boards/" +:+ py_str board_id +:+ "/columns".

Definition settings_path : string :=
  AZURE_PROJ +:+ "/" +:+ TEAM_NAME +:+ "/_apis/work/teamsettings/teamfieldvalues".

(** [n] slashes. *)
Fixpoint slashes (n : nat) : string :=
  match n with
  | O => EmptyString
  | S n => String "/" (slashes n)
  end.

(* ================================================================== *)
(** * Proofs *)

Ltac unfold_M := unfold mbind, M_bind, mret, M_ret, lift, emit, add_seen, get_seen in *.

Ltac destr_sum H := repeat match type of H with
  | context [match ?x with inl _ => _ | inr _ => _ end] => destruct x
  end.

Lemma process_item_spec env wid st st' r :
  process_item env wid st = (st', r) ->
  (wid ∈ seen_ids st /\ st' = st /\ r = inr tt) \/
  ((wid ∉ seen_ids st) /\ seen_ids st' = {[wid]} ∪ seen_ids st /\
   (exists tail, out st' = out st ++ EvSeenAdd wid :: EvFetch wid :: tail /\
   ((tail = [] /\ (exists e, r = inl e)) \/
    (r = inr tt /\ (exists text, tail = [EvNotify wid; EvSlackPost text] \/
                     (exists e, tail = [EvNotify wid; EvSlackPost text; EvWarn e])))))).
Proof.
  unfold process_item, get_work_item, post_to_slack. unfold_M. cbn.
  destruct (decide (wid ∈ seen_ids st)) as [Hin|Hnin].
  - intros [= <- <-]. left; auto.
  - intros H; right; split; [exact Hnin|].
    destr_sum H;
      try (match type of H with
           | context [match env_slack ?a ?b with _ => _ end] => destruct (env_slack a b)
           end);
      injection H as <- <-; cbn.
    all: (split; [reflexivity|]); eexists;
      (split; [rewrite <- !app_assoc; reflexivity|]);
      first [ left; split; [reflexivity|eauto]
            | right; split; [reflexivity|]; eexists;
              first [left; reflexivity | right; eexists; reflexivity] ].
Qed.

Lemma precedes_app a b tr1 tr2 :
  precedes a b tr1 -> precedes a b tr2 -> precedes a b (tr1 ++ tr2).
Proof.
  intros H1 H2 pre post E.
  destruct (app_eq_app _ _ _ _ (eq_sym E)) as [l [[E1 E2] | [E1 E2]]].
  - subst pre. apply in_or_app; right. exact (H2 l post E2).
  - destruct l as [|x l].
    + simpl in E2. exfalso. exact (H2 [] post (eq_sym E2)).
    + simpl in E2. injection E2 as -> ->. exact (H1 pre l E1).
Qed.

Lemma precedes_not_in a b tr : ~ In b tr -> precedes a b tr.
Proof.
  intros Hn pre post ->. exfalso. apply Hn, in_or_app. right; left; reflexivity.
Qed.

Lemma precedes_cons_head a b t : a <> b -> precedes a b (a :: t).
Proof.
  intros Hne [|x pre] post E; simpl in E; injection E.
  - intros _ Hab. congruence.
  - intros _ ->. left; reflexivity.
Qed.

Lemma precedes_nil a b : precedes a b [].
Proof. apply precedes_not_in. simpl; tauto. Qed.

Lemma notifications_app w tr1 tr2 :
  notifications w (tr1 ++ tr2) = (notifications w tr1 + notifications w tr2)%nat.
Proof.
  induction tr1 as [|ev t IH]; [reflexivity|].
  destruct ev; simpl; rewrite ?IH; lia.
Qed.

Lemma notifications_neutral w ev : neutral ev -> notifications w [ev] = 0%nat.
Proof. destruct ev; simpl; tauto. Qed.

Lemma Inv_refl st : Inv (seen_ids st) st st.
Proof.
  split; [set_solver|]. exists []. split; [by rewrite app_nil_r|].
  split; [simpl; tauto|]. split; [intros w; split; apply precedes_nil|].
  intros w; simpl; split; lia.
Qed.

Lemma Inv_emit seen0 st0 st ev :
  Inv seen0 st0 st -> neutral ev ->
  Inv seen0 st0 (mkSt (seen_ids st) (out st ++ [ev])).
Proof.
  intros [Hsub [tr (Hout & Hex & Hpre & Hn)]] Hev.
  split; [exact Hsub|]. exists (tr ++ [ev]); cbn.
  split; [rewrite Hout, app_assoc; reflexivity|].
  split; [|split].
  - intros w Hw. destruct (Hex w Hw) as (A & B & C). rewrite !in_app_iff.
    destruct ev; simpl in *; try contradiction; intuition congruence.
  - intros w; split; apply precedes_app; try apply Hpre;
      apply precedes_not_in; destruct ev; simpl in *; try contradiction; intuition congruence.
  - intros w. rewrite notifications_app, (notifications_neutral _ _ Hev), Nat.add_0_r.
    apply Hn.
Qed.

Lemma item_block_facts w tail :
  item_tail w tail ->
  (forall w', In (EvSeenAdd w') (EvSeenAdd w :: EvFetch w :: tail) \/
              In (EvFetch w') (EvSeenAdd w :: EvFetch w :: tail) \/
              In (EvNotify w') (EvSeenAdd w :: EvFetch w :: tail) -> w' = w) /\
  (forall w', w' <> w -> notifications w' (EvSeenAdd w :: EvFetch w :: tail) = 0%nat) /\
  (notifications w (EvSeenAdd w :: EvFetch w :: tail) <= 1)%nat.
Proof.
  intros [->|[text [->|[e ->]]]]; simpl;
    (split; [intros w' H; intuition congruence|]);
    (split; [intros w' Hne; destruct (Z.eqb_spec w' w); [contradiction|reflexivity]|]);
    rewrite ?Z.eqb_refl; lia.
Qed.

Lemma Inv_block seen0 st0 st st' w tail :
  Inv seen0 st0 st -> w ∉ seen_ids st ->
  seen_ids st' = {[w]} ∪ seen_ids st ->
  out st' = out st ++ EvSeenAdd w :: EvFetch w :: tail ->
  item_tail w tail ->
  Inv seen0 st0 st'.
Proof.
  intros [Hsub [tr (Hout & Hex & Hpre & Hn)]] Hw Hseen Hout' Ht.
  destruct (item_block_facts w tail Ht) as (Hm & Hz & Hle).
  set (blk := EvSeenAdd w :: EvFetch w :: tail) in *.
  split; [rewrite Hseen; set_solver|].
  exists (tr ++ blk). split; [rewrite Hout', Hout, app_assoc; reflexivity|].
  split; [|split].
  - intros w' Hw'. destruct (Hex w' Hw') as (A & B & C).
    assert (w' <> w) by (intros ->; set_solver).
    rewrite !in_app_iff. intuition eauto.
  - intros w'; split; apply precedes_app; try apply Hpre;
      (destruct (Z.eq_dec w' w) as [->|Hne];
       [apply precedes_cons_head; discriminate
       |apply precedes_not_in; intros Hin; apply Hne, Hm; auto]).
  - intros w'. rewrite notifications_app.
    destruct (Z.eq_dec w' w) as [->|Hne].
    + destruct (Hn w) as [Hn1 Hn2].
      assert (notifications w tr = 0%nat).
      { destruct (notifications w tr) as [|[|k]] eqn:Ew; [reflexivity| |lia].
        exfalso. apply Hw, Hn2; reflexivity. }
      split; [lia|]. intros _. rewrite Hseen; set_solver.
    + rewrite (Hz w' Hne), Nat.add_0_r. destruct (Hn w') as [Hn1 Hn2].
      split; [exact Hn1|]. intros E. rewrite Hseen. apply Hn2 in E. set_solver.
Qed.

Lemma for_process_Inv env seen0 st0 items :
  forall st st' r, Inv seen0 st0 st ->
  for_ items (process_item env) st = (st', r) -> Inv seen0 st0 st'.
Proof.
  induction items as [|x t IH]; intros st st' r HI H.
  - cbn in H. unfold mret, M_ret in H. injection H as <- _. exact HI.
  - cbn [for_] in H. unfold mbind, M_bind in H.
    destruct (process_item env x st) as [s1 r1] eqn:E.
    apply process_item_spec in E.
    assert (HI1 : Inv seen0 st0 s1).
    { destruct E as [(_ & -> & _)|(Hn & Hs & tail & Ho & Ht)]; [exact HI|].
      eapply Inv_block; eauto.
      destruct Ht as [[-> _]|[_ Ht]]; [left; reflexivity|right; exact Ht]. }
    destruct r1 as [e|[]]; [injection H as <- _; exact HI1|].
    exact (IH _ _ _ HI1 H).
Qed.

Lemma poll_body_eq env pred st :
  poll_body env pred st =
  let q := wiql_text AZURE_PROJ COLUMN_NAME pred in
  let s1 := mkSt (seen_ids st) (out st ++ [EvQuery q]) in
  match env_wiql env q with
  | inl e => (s1, inl e)
  | inr items => for_ items (process_item env) s1
  end.
Proof.
  unfold poll_body, query_items_in_board_column. unfold_M. cbn.
  destruct (env_wiql env _); reflexivity.
Qed.

Lemma poll_cycle_eq env pred st :
  poll_cycle env pred st =
  let '(s2, r) := poll_body env pred st in
  (mkSt (seen_ids s2)
        (out s2 ++ match r with inl e => [EvError e] | inr _ => [] end
                ++ [EvSleep POLL_INTERVAL]), inr tt).
Proof.
  unfold poll_cycle, try_except. unfold_M.
  destruct (poll_body env pred st) as [s2 [e|[]]]; cbn;
    rewrite <- ?app_assoc; reflexivity.
Qed.

Lemma poll_body_Inv seen0 st0 env pred st s2 r2 :
  Inv seen0 st0 st -> poll_body env pred st = (s2, r2) -> Inv seen0 st0 s2.
Proof.
  intros HI. rewrite poll_body_eq. cbn.
  assert (HI1 : Inv seen0 st0
    (mkSt (seen_ids st) (out st ++ [EvQuery (wiql_text AZURE_PROJ COLUMN_NAME pred)])))
    by (apply Inv_emit; [exact HI|exact I]).
  destruct (env_wiql env _) as [e|items].
  - intros [= <- _]. exact HI1.
  - apply for_process_Inv. exact HI1.
Qed.

Lemma poll_cycle_Inv seen0 st0 env pred st st' r :
  Inv seen0 st0 st -> poll_cycle env pred st = (st', r) -> Inv seen0 st0 st'.
Proof.
  intros HI. rewrite poll_cycle_eq.
  destruct (poll_body env pred st) as [s2 r2] eqn:E.
  pose proof (poll_body_Inv _ _ _ _ _ _ _ HI E) as HI2.
  intros [= <- _]. destruct r2 as [e|[]].
  - rewrite app_assoc.
    exact (Inv_emit _ _ (mkSt (seen_ids s2) (out s2 ++ [EvError e])) (EvSleep POLL_INTERVAL)
             (Inv_emit _ _ s2 (EvError e) HI2 I) I).
  - rewrite app_nil_l. exact (Inv_emit _ _ s2 (EvSleep POLL_INTERVAL) HI2 I).
Qed.

Lemma poll_loop_Inv seen0 st0 pred envs :
  forall st st' r, Inv seen0 st0 st -> poll_loop pred envs st = (st', r) -> Inv seen0 st0 st'.
Proof.
  unfold poll_loop.
  induction envs as [|env t IH]; intros st st' r HI H.
  - cbn in H. unfold mret, M_ret in H. injection H as <- _. exact HI.
  - cbn [for_] in H. unfold mbind, M_bind in H.
    destruct (poll_cycle env pred st) as [s1 r1] eqn:E.
    pose proof (poll_cycle_Inv _ _ _ _ _ _ _ HI E) as HI1.
    destruct r1 as [e|[]]; [injection H as <- _; exact HI1|].
    exact (IH _ _ _ HI1 H).
Qed.

Lemma item_block_quiet w tail :
  item_tail w tail ->
  (forall q, ~ In (EvQuery q) (EvSeenAdd w :: EvFetch w :: tail)) /\
  (forall t, ~ In (EvSleep t) (EvSeenAdd w :: EvFetch w :: tail)).
Proof.
  intros [->|[text [->|[e ->]]]]; simpl; split; intros; intuition congruence.
Qed.

Lemma for_process_out env items :
  forall st st' r, for_ items (process_item env) st = (st', r) ->
  exists x, out st' = out st ++ x /\
    (forall q, ~ In (EvQuery q) x) /\ (forall t, ~ In (EvSleep t) x).
Proof.
  induction items as [|i t IH]; intros st st' r H.
  - cbn in H. unfold mret, M_ret in H. injection H as <- _.
    exists []; rewrite app_nil_r; simpl; tauto.
  - cbn [for_] in H. unfold mbind, M_bind in H.
    destruct (process_item env i st) as [s1 r1] eqn:E.
    assert (H1 : exists x1, out s1 = out st ++ x1 /\
              (forall q, ~ In (EvQuery q) x1) /\ (forall t, ~ In (EvSleep t) x1)).
    { apply process_item_spec in E.
      destruct E as [(_ & -> & _)|(_ & _ & tail & Ho & Ht)].
      - exists []; rewrite app_nil_r; simpl; tauto.
      - exists (EvSeenAdd i :: EvFetch i :: tail). split; [exact Ho|].
        apply item_block_quiet.
        destruct Ht as [[-> _]|[_ Ht]]; [left; reflexivity|right; exact Ht]. }
    destruct H1 as (x1 & Ho1 & Hq1 & Hs1).
    destruct r1 as [e|[]].
    + injection H as <- _. eauto.
    + destruct (IH _ _ _ H) as (x2 & Ho2 & Hq2 & Hs2).
      exists (x1 ++ x2). rewrite Ho2, Ho1, app_assoc.
      split; [reflexivity|].
      split; intros ? Hin; apply in_app_iff in Hin as [Hin|Hin];
        [eapply Hq1|eapply Hq2|eapply Hs1|eapply Hs2]; exact Hin.
Qed.

Lemma poll_cycle_shape env pred st st' r :
  poll_cycle env pred st = (st', r) ->
  r = inr tt /\
  exists x, out st' = out st ++ EvQuery (wiql_text AZURE_PROJ COLUMN_NAME pred) :: x
                            ++ [EvSleep POLL_INTERVAL] /\
            (forall q, ~ In (EvQuery q) x).
Proof.
  rewrite poll_cycle_eq, poll_body_eq. cbn.
  destruct (env_wiql env _) as [e|items].
  - intros [= <- <-]. split; [reflexivity|]. exists [EvError e]. cbn.
    rewrite <- app_assoc. split; [reflexivity|]. simpl; intuition congruence.
  - destruct (for_ items _ _) as [s2 r2] eqn:E. intros [= <- <-].
    split; [reflexivity|].
    destruct (for_process_out _ _ _ _ _ E) as (x1 & Ho & Hq & _).
    exists (x1 ++ match r2 with inl e => [EvError e] | inr _ => [] end). cbn.
    rewrite Ho. cbn. rewrite <- !app_assoc. split; [reflexivity|].
    intros q Hin. apply in_app_iff in Hin as [Hin|Hin]; [exact (Hq q Hin)|].
    destruct r2; simpl in Hin; intuition congruence.
Qed.

Lemma sleep_between_block q0 x rest :
  (forall q, ~ In (EvQuery q) x) -> sleep_between rest ->
  sleep_between ((EvQuery q0 :: x ++ [EvSleep POLL_INTERVAL]) ++ rest).
Proof.
  intros Hx Hr pre mid post q1 q2 E.
  assert (Hblk : forall q, ~ In (EvQuery q) (x ++ [EvSleep POLL_INTERVAL])).
  { intros q Hin. apply in_app_iff in Hin as [Hin|[Hin|[]]];
      [exact (Hx q Hin)|discriminate]. }
  destruct (app_eq_app _ _ _ _ E) as [l [[E1 E2]|[E1 E2]]].
  - destruct l as [|y l].
    + exact (Hr [] mid post q1 q2 (eq_sym E2)).
    + simpl in E2. injection E2 as <- E2.
      destruct pre as [|z pre].
      * simpl in E1. injection E1 as _ El.
        rewrite <- El in E2.
        destruct (app_eq_app _ _ _ _ E2) as [m [[M1 M2]|[M1 M2]]].
        -- rewrite M1. apply in_app_iff; left. apply in_app_iff; right; left; reflexivity.
        -- destruct m as [|w m].
           ++ rewrite app_nil_r in M1. rewrite <- M1.
              apply in_app_iff; right; left; reflexivity.
           ++ simpl in M2. injection M2 as <- _.
              exfalso. apply (Hblk q2). rewrite M1.
              apply in_app_iff; right; left; reflexivity.
      * simpl in E1. injection E1 as _ E1.
        exfalso. apply (Hblk q1). rewrite E1.
        apply in_app_iff; right; left; reflexivity.
  - exact (Hr l mid post q1 q2 E2).
Qed.

Lemma process_item_raises env x s s' e :
  process_item env x s = (s', inl e) ->
  (x ∉ seen_ids s) /\ seen_ids s' = {[x]} ∪ seen_ids s.
Proof.
  intros H. apply process_item_spec in H.
  destruct H as [(_ & _ & E)|(Hn & Hs & _)]; [discriminate|split; assumption].
Qed.

Lemma process_item_ok_seen env x s s' :
  process_item env x s = (s', inr tt) -> seen_ids s' = {[x]} ∪ seen_ids s.
Proof.
  intros H. apply process_item_spec in H.
  destruct H as [(Hin & -> & _)|(_ & Hs & _)]; [set_solver|exact Hs].
Qed.

Lemma for_process_ok_seen env l :
  forall s s', for_ l (process_item env) s = (s', inr tt) ->
  seen_ids s' = seen_ids s ∪ list_to_set l.
Proof.
  induction l as [|i t IH]; intros s s' H.
  - cbn in H. unfold mret, M_ret in H. injection H as <-. set_solver.
  - cbn [for_] in H. unfold mbind, M_bind in H.
    destruct (process_item env i s) as [s1 [e|[]]] eqn:E; [discriminate|].
    rewrite (IH _ _ H), (process_item_ok_seen _ _ _ _ E). simpl. set_solver.
Qed.

Lemma for_process_raises env items :
  forall s s' e, for_ items (process_item env) s = (s', inl e) ->
  exists pre x post s_pre, items = pre ++ x :: post /\
    for_ pre (process_item env) s = (s_pre, inr tt) /\
    process_item env x s_pre = (s', inl e).
Proof.
  induction items as [|i t IH]; intros s s' e H.
  - cbn in H. unfold mret, M_ret in H. discriminate.
  - cbn [for_] in H. unfold mbind, M_bind in H.
    destruct (process_item env i s) as [s1 [e1|[]]] eqn:E.
    + injection H as <- <-. exists [], i, t, s. split; [reflexivity|].
      split; [reflexivity|exact E].
    + destruct (IH _ _ _ H) as (pre & x & post & s_pre & -> & Hp & Hx).
      exists (i :: pre), x, post, s_pre. split; [reflexivity|]. split; [|exact Hx].
      cbn [for_]. unfold mbind, M_bind. rewrite E. exact Hp.
Qed.

Lemma notifications_not_in w tr : ~ In (EvNotify w) tr -> notifications w tr = 0%nat.
Proof.
  induction tr as [|ev t IH]; intros Hn; [reflexivity|].
  destruct ev; simpl in *; try (apply IH; tauto).
  destruct (Z.eqb_spec w wid); [subst; tauto|]. simpl. apply IH; tauto.
Qed.

Lemma area_parts_filter values :
  area_parts values =
  map (fun v => spec_area_clause (default false (tfv_includeChildren v)) (default "" (tfv_value v)))
      (List.filter usable values).
Proof.
  induction values as [|v t IH]; [reflexivity|].
  simpl. unfold usable at 1. destruct (path_falsy (tfv_value v)); simpl; [exact IH|].
  rewrite IH. destruct (default false (tfv_includeChildren v)); reflexivity.
Qed.

Lemma area_parts_clauses values :
  Forall (fun c => exists b p, p <> "" /\ c = spec_area_clause b p) (area_parts values).
Proof.
  induction values as [|v t IH]; [constructor|].
  simpl. destruct (tfv_value v) as [s|] eqn:Ev; cbn [path_falsy]; [|exact IH].
  destruct (String.eqb_spec s "") as [_|Hs]; [exact IH|]. cbn [default from_option id].
  destruct (default false (tfv_includeChildren v)); constructor; try exact IH.
  - exists true, s. split; [exact Hs|reflexivity].
  - exists false, s. split; [exact Hs|reflexivity].
Qed.

Lemma filter_usable_nil values :
  Forall (fun v => usable v = false) values -> List.filter usable values = [].
Proof.
  induction 1 as [|v t Hv _ IH]; [reflexivity|]. simpl. rewrite Hv. exact IH.
Qed.

Lemma filter_usable_cons values :
  Exists (fun v => usable v = true) values -> List.filter usable values <> [].
Proof.
  induction 1 as [v t Hv|v t _ IH]; simpl.
  - rewrite Hv. discriminate.
  - destruct (usable v); [discriminate|exact IH].
Qed.

Lemma poll_loop_total pred envs :
  forall st, snd (poll_loop pred envs st) = inr tt.
Proof.
  unfold poll_loop. induction envs as [|env t IH]; intros st; [reflexivity|].
  cbn [for_]. unfold mbind, M_bind.
  destruct (poll_cycle env pred st) as [s1 r1] eqn:E.
  destruct (poll_cycle_shape _ _ _ _ _ E) as [-> _]. apply IH.
Qed.

Lemma poll_loop_sleeps pred envs :
  forall st st' r, poll_loop pred envs st = (st', r) ->
  exists tr, out st' = out st ++ tr /\ sleep_between tr.
Proof.
  unfold poll_loop. induction envs as [|env t IH]; intros st st' r H.
  - cbn in H. unfold mret, M_ret in H. injection H as <- _.
    exists []. rewrite app_nil_r. split; [reflexivity|].
    intros [|] ? ? ? ? E; discriminate.
  - cbn [for_] in H. unfold mbind, M_bind in H.
    destruct (poll_cycle env pred st) as [s1 r1] eqn:E.
    destruct (poll_cycle_shape _ _ _ _ _ E) as [-> (x & Ho & Hq)].
    destruct (IH _ _ _ H) as (tr & Ho' & Hs).
    exists ((EvQuery (wiql_text AZURE_PROJ COLUMN_NAME pred) :: x ++ [EvSleep POLL_INTERVAL]) ++ tr).
    split; [rewrite Ho', Ho, app_assoc; reflexivity|].
    apply sleep_between_block; assumption.
Qed.

(* ================================================================== *)
(** * The claims *)

(** ** Poll loop and [seen_ids] *)

(** C1: in every poll cycle, an item identifier already in [seen_ids] is
    never fetched and never handed to [post_to_slack]; an identifier that is
    handed to [post_to_slack] (or fetched) was added to [seen_ids] earlier in
    the same cycle. *)
Theorem poll_cycle_notifies_only_unseen env pred st st' r :
  poll_cycle env pred st = (st', r) ->
  exists tr, out st' = out st ++ tr /\
    (forall w, w ∈ seen_ids st -> ~ In (EvNotify w) tr /\ ~ In (EvFetch w) tr) /\
    (forall w pre post, tr = pre ++ EvNotify w :: post -> In (EvSeenAdd w) pre) /\
    (forall w pre post, tr = pre ++ EvFetch w :: post -> In (EvSeenAdd w) pre).
Proof.
  intros H.
  destruct (poll_cycle_Inv _ _ _ _ _ _ _ (Inv_refl st) H) as [_ [tr (Ho & Hex & Hpre & _)]].
  exists tr. split; [exact Ho|].
  split; [intros w Hw; destruct (Hex w Hw) as (A & _ & C); tauto|].
  split; intros w; apply Hpre.
Qed.

Lemma poll_cycle_notifies_only_unseen_witness :
  poll_cycle (scn_env scn_ok) scn_pred (mkSt {[101]} []) =
    (mkSt {[101; 102]} [EvQuery scn_query; EvSeenAdd 102; EvFetch 102; EvNotify 102;
                        EvSlackPost (scn_text 102); EvSleep POLL_INTERVAL], inr tt) /\
  exists tr, out (mkSt {[101; 102]} [EvQuery scn_query; EvSeenAdd 102; EvFetch 102; EvNotify 102;
                        EvSlackPost (scn_text 102); EvSleep POLL_INTERVAL])
             = out (mkSt {[101]} []) ++ tr /\
    (forall w, w ∈ seen_ids (mkSt {[101]} []) -> ~ In (EvNotify w) tr /\ ~ In (EvFetch w) tr) /\
    (forall w pre post, tr = pre ++ EvNotify w :: post -> In (EvSeenAdd w) pre) /\
    (forall w pre post, tr = pre ++ EvFetch w :: post -> In (EvSeenAdd w) pre).
Proof.
  split.
  - vm_compute. reflexivity.
  - apply (poll_cycle_notifies_only_unseen (scn_env scn_ok) scn_pred (mkSt {[101]} [])
             _ (inr tt)).
    vm_compute. reflexivity.
Defined.

(** C4: over any run of the loop, whatever the server answers, each work
    item id is handed to [post_to_slack] at most once, and never if it was
    already in [seen_ids] when the run started.  Scenario: the query
    returns [101; 102] with 101 already seen: only 102 is fetched and
    notified, and [seen_ids] becomes {101, 102}; a second cycle over the same
    answer notifies nothing. *)
Theorem notify_at_most_once :
  (forall pred envs st st' r, poll_loop pred envs st = (st', r) ->
     exists tr, out st' = out st ++ tr /\
       forall w, (notifications w tr <= 1)%nat /\
                 (w ∈ seen_ids st -> notifications w tr = 0%nat)) /\
  poll_cycle (scn_env scn_ok) scn_pred (mkSt {[101]} []) =
    (mkSt {[101; 102]} [EvQuery scn_query; EvSeenAdd 102; EvFetch 102; EvNotify 102;
                        EvSlackPost (scn_text 102); EvSleep POLL_INTERVAL], inr tt) /\
  poll_loop scn_pred [scn_env scn_ok; scn_env scn_ok] (mkSt {[101]} []) =
    (mkSt {[101; 102]} [EvQuery scn_query; EvSeenAdd 102; EvFetch 102; EvNotify 102;
                        EvSlackPost (scn_text 102); EvSleep POLL_INTERVAL;
                        EvQuery scn_query; EvSleep POLL_INTERVAL], inr tt).
Proof.
  split; [|split; vm_compute; reflexivity].
  intros pred envs st st' r H.
  destruct (poll_loop_Inv _ _ _ _ _ _ _ (Inv_refl st) H) as [_ [tr (Ho & Hex & _ & Hn)]].
  exists tr. split; [exact Ho|]. intros w. split; [apply Hn|].
  intros Hw. apply notifications_not_in. apply (Hex w Hw).
Qed.

(** C5: no exception escapes a poll cycle, so the loop never stops on one.
    When the [try] block of a cycle raises, the exception is printed and the
    cycle ends with its sleep.  Either the query raised, and [seen_ids] is
    unchanged; or the item [x] of the answer raised: the items [pre] before
    it were processed without raising, [x] was new when it was reached (it
    is the item being fetched or read), and [seen_ids] gains exactly [pre]
    and [x].  An item after [x] that was not already seen is not in
    [seen_ids] when the next cycle starts.  Scenario: the answer is
    [102; 7; 103] and the GET of 7 answers 404: the first cycle notifies 102
    and stops at 7; the second cycle skips 102 and 7 and notifies 103. *)
Theorem poll_errors_recovered :
  (forall pred envs st, snd (poll_loop pred envs st) = inr tt) /\
  (forall env pred st s1 e, poll_body env pred st = (s1, inl e) ->
     poll_cycle env pred st =
       (mkSt (seen_ids s1) (out s1 ++ [EvError e; EvSleep POLL_INTERVAL]), inr tt) /\
     ((env_wiql env (wiql_text AZURE_PROJ COLUMN_NAME pred) = inl e /\
       seen_ids s1 = seen_ids st) \/
      (exists items pre x post s_pre,
         env_wiql env (wiql_text AZURE_PROJ COLUMN_NAME pred) = inr items /\
         items = pre ++ x :: post /\
         for_ pre (process_item env)
           (mkSt (seen_ids st) (out st ++ [EvQuery (wiql_text AZURE_PROJ COLUMN_NAME pred)]))
           = (s_pre, inr tt) /\
         process_item env x s_pre = (s1, inl e) /\
         (x ∉ seen_ids st ∪ list_to_set pre) /\
         seen_ids s1 = {[x]} ∪ (seen_ids st ∪ list_to_set pre) /\
         (forall y, In y post -> y ∉ seen_ids st ∪ list_to_set (pre ++ [x]) ->
            y ∉ seen_ids (fst (poll_cycle env pred st)))))) /\
  poll_loop scn_pred [scn_env_fetch_fails; scn_env_fetch_fails] (mkSt ∅ []) =
    (mkSt {[102; 7; 103]}
       [EvQuery scn_query; EvSeenAdd 102; EvFetch 102; EvNotify 102;
        EvSlackPost (scn_text 102); EvSeenAdd 7; EvFetch 7;
        EvError (HTTPError (mkResponse 404 "")); EvSleep POLL_INTERVAL;
        EvQuery scn_query; EvSeenAdd 103; EvFetch 103; EvNotify 103;
        EvSlackPost (scn_text 103); EvSleep POLL_INTERVAL], inr tt).
Proof.
  split; [intros; apply poll_loop_total|].
  split; [|vm_compute; reflexivity].
  intros env pred st s1 e H.
  assert (Hc : poll_cycle env pred st =
    (mkSt (seen_ids s1) (out s1 ++ [EvError e; EvSleep POLL_INTERVAL]), inr tt))
    by (rewrite poll_cycle_eq, H; reflexivity).
  split; [exact Hc|].
  rewrite poll_body_eq in H. cbv zeta in H.
  destruct (env_wiql env (wiql_text AZURE_PROJ COLUMN_NAME pred)) as [e'|items] eqn:Eq.
  - injection H as <- ->. left. split; reflexivity.
  - right. destruct (for_process_raises _ _ _ _ _ H) as (pre & x & post & s_pre & -> & Hp & Hx).
    pose proof (for_process_ok_seen _ _ _ _ Hp) as Hsp. cbn [seen_ids] in Hsp.
    destruct (process_item_raises _ _ _ _ _ Hx) as [Hn Hs].
    exists (pre ++ x :: post), pre, x, post, s_pre.
    split; [reflexivity|]. split; [reflexivity|]. split; [exact Hp|]. split; [exact Hx|].
    split; [rewrite <- Hsp; exact Hn|].
    split; [rewrite Hs, Hsp; reflexivity|].
    intros y _ Hy. rewrite Hc. cbn [fst seen_ids]. rewrite Hs, Hsp. set_solver.
Qed.

(** C10: every cycle, also one whose [try] block raised, ends with
    [time.sleep(POLL_INTERVAL)], and the cycle issues exactly one query, at
    its start; hence in any run, two consecutive WIQL queries are separated
    by a sleep of [POLL_INTERVAL] seconds. *)
Theorem sleep_after_every_cycle :
  (forall env pred st st' r, poll_cycle env pred st = (st', r) ->
     exists x, out st' = out st ++ EvQuery (wiql_text AZURE_PROJ COLUMN_NAME pred) :: x
                                 ++ [EvSleep POLL_INTERVAL] /\
               (forall q, ~ In (EvQuery q) x)) /\
  (forall pred envs st st' r, poll_loop pred envs st = (st', r) ->
     exists tr, out st' = out st ++ tr /\ sleep_between tr).
Proof.
  split.
  - intros env pred st st' r H. apply (poll_cycle_shape _ _ _ _ _ H).
  - exact poll_loop_sleeps.
Qed.

(** ** Area-scope predicate *)

(** C2: when at least one entry has a usable path, the predicate is the
    clauses of the usable entries, in order ([UNDER] when includeChildren is
    true, [=] when it is false), joined with " OR " inside one pair of
    parentheses.  Scenario: [{value: "Proj\Team", includeChildren: true}]
    gives "([System.AreaPath] UNDER 'Proj\Team')". *)
Theorem area_predicate_disjunction :
  (forall values : list TeamFieldValue,
     Exists (fun v => usable v = true) values ->
     get_team_area_predicate (mkTeamSettings (Some values)) =
       "(" +:+ py_join " OR "
               (map (fun v => spec_area_clause (default false (tfv_includeChildren v))
                                               (default "" (tfv_value v)))
                    (List.filter usable values)) +:+ ")") /\
  get_team_area_predicate (mkTeamSettings (Some [mkTFV (Some "Proj\Team") (Some true)]))
    = "([System.AreaPath] UNDER 'Proj\Team')".
Proof.
  split; [|reflexivity].
  intros values Hex. unfold get_team_area_predicate. cbn [ts_values default from_option id].
  pose proof (filter_usable_cons _ Hex) as Hne.
  destruct values as [|v t]; [inversion Hex|].
  rewrite area_parts_filter.
  destruct (List.filter usable (v :: t)) as [|p ps]; [contradiction|reflexivity].
Qed.

(** C3: with no values, or no entry with a usable path, the predicate is
    the project fallback "[System.TeamProject] = 'OmniStack'"; for every
    input the predicate is a non-empty string, and it is well formed: either
    the fallback, or a non-empty list of area clauses joined with " OR "
    inside one pair of parentheses, each clause being
    "[System.AreaPath] UNDER '<path>'" or "[System.AreaPath] = '<path>'"
    for a non-empty path (the path is copied as it is, unescaped). *)
Theorem area_predicate_fallback :
  forall data : TeamSettings,
    ((default [] (ts_values data) = [] \/
      Forall (fun v => usable v = false) (default [] (ts_values data))) ->
     get_team_area_predicate data = "[System.TeamProject] = 'OmniStack'") /\
    get_team_area_predicate data <> "" /\
    (get_team_area_predicate data = "[System.TeamProject] = 'OmniStack'" \/
     exists clauses, clauses <> [] /\
       Forall (fun c => exists b p, p <> "" /\ c = spec_area_clause b p) clauses /\
       get_team_area_predicate data = "(" +:+ py_join " OR " clauses +:+ ")").
Proof.
  intros data. split; [|split].
  - intros Hcase. unfold get_team_area_predicate.
    destruct (default [] (ts_values data)) as [|v t] eqn:Ev; [reflexivity|].
    destruct Hcase as [Hc|Hc]; [discriminate|].
    rewrite area_parts_filter, (filter_usable_nil _ Hc). reflexivity.
  - unfold get_team_area_predicate.
    destruct (default [] (ts_values data)); [discriminate|].
    destruct (area_parts _); discriminate.
  - unfold get_team_area_predicate.
    destruct (default [] (ts_values data)) as [|v t]; [left; reflexivity|].
    pose proof (area_parts_clauses (v :: t)) as Hf.
    destruct (area_parts (v :: t)) as [|c cs]; [left; reflexivity|].
    right. exists (c :: cs). split; [discriminate|]. split; [exact Hf|reflexivity].
Qed.

(** C9: an entry with a usable path and no includeChildren field (or a
    null one) gives the exact clause [=]; [UNDER] comes only from an
    explicit [true]. *)
Theorem area_clause_include_children_default :
  forall (v : TeamFieldValue) (rest : list TeamFieldValue),
    usable v = true ->
    area_parts (v :: rest) =
      match tfv_includeChildren v with
      | Some true => "[System.AreaPath] UNDER '" +:+ default "" (tfv_value v) +:+ "'"
      | _ => "[System.AreaPath] = '" +:+ default "" (tfv_value v) +:+ "'"
      end :: area_parts rest.
Proof.
  intros v rest Hu. simpl. unfold usable in Hu.
  destruct (path_falsy (tfv_value v)); [discriminate|].
  destruct (tfv_includeChildren v) as [[]|]; reflexivity.
Qed.

Lemma area_clause_include_children_default_witness :
  usable (mkTFV (Some "OmniStack\WASP") None) = true /\
  area_parts [mkTFV (Some "OmniStack\WASP") None] =
    ["[System.AreaPath] = 'OmniStack\WASP'"].
Proof.
  split; [reflexivity|].
  exact (area_clause_include_children_default (mkTFV (Some "OmniStack\WASP") None) [] eq_refl).
Defined.

(** ** Board and column lookup *)

(** C6: [get_board_id_by_name] and [get_column_id_by_name] return the id of
    the entry whose name equals the requested one exactly (string equality,
    so case-sensitive) when exactly one entry has that name; any result they
    return comes from an entry with exactly that name; when no entry has it
    they raise the error the spec calls NotFoundError (a [RuntimeError]
    here) whose message ends with the list of available names.  Scenario:
    boards [{name: "Stories", id: 3}]: "Stories" gives 3, "Backlog" raises
    with "Available: ['Stories']". *)
Theorem board_column_lookup :
  (forall boards team name b,
     In b boards -> e_name b = Some name ->
     (forall b', In b' boards -> e_name b' = Some name -> b' = b) ->
     get_board_id_by_name boards team name = inr (e_id b, name)) /\
  (forall cols board_id name c,
     In c cols -> e_name c = Some name ->
     (forall c', In c' cols -> e_name c' = Some name -> c' = c) ->
     get_column_id_by_name cols board_id name = inr (e_id c, name)) /\
  (forall boards team name i n, get_board_id_by_name boards team name = inr (i, n) ->
     n = name /\ exists b, In b boards /\ e_name b = Some name /\ e_id b = i) /\
  (forall cols board_id name i n, get_column_id_by_name cols board_id name = inr (i, n) ->
     n = name /\ exists c, In c cols /\ e_name c = Some name /\ e_id c = i) /\
  (forall boards team name,
     (forall b, In b boards -> e_name b <> Some name) ->
     get_board_id_by_name boards team name =
       inl (RuntimeError ("Board '" +:+ name +:+ "' not found for team '" +:+ team
              +:+ "'. Available: " +:+ py_repr_list (map e_name boards)))) /\
  (forall cols board_id name,
     (forall c, In c cols -> e_name c <> Some name) ->
     get_column_id_by_name cols board_id name =
       inl (RuntimeError ("Column '" +:+ name +:+ "' not found on board id "
              +:+ py_str board_id +:+ ". Available: " +:+ py_repr_list (map e_name cols)))) /\
  get_board_id_by_name [mkEntry (JNum 3) (Some "Stories")] TEAM_NAME "Stories"
    = inr (JNum 3, "Stories") /\
  get_board_id_by_name [mkEntry (JNum 3) (Some "Stories")] TEAM_NAME "Backlog"
    = inl (RuntimeError "Board 'Backlog' not found for team 'WASP'. Available: ['Stories']").
Proof.
  assert (Hm : forall name b, name_matches name b = true <-> e_name b = Some name).
  { intros name b. unfold name_matches. destruct (e_name b) as [n|]; [|split; discriminate].
    rewrite String.eqb_eq. split; congruence. }
  assert (Hfound : forall l name b, In b l -> e_name b = Some name ->
            (forall b', In b' l -> e_name b' = Some name -> b' = b) ->
            find (name_matches name) l = Some b).
  { intros l name b Hin Hb Huniq.
    destruct (find (name_matches name) l) as [b0|] eqn:E.
    - apply find_some in E as [Hin0 Hm0]. f_equal. apply Huniq; [exact Hin0|]. apply Hm, Hm0.
    - exfalso. pose proof (find_none _ _ E b Hin) as Hf.
      apply Hm in Hb. congruence. }
  assert (Hres : forall l name b, find (name_matches name) l = Some b ->
            In b l /\ e_name b = Some name).
  { intros l name b E. apply find_some in E as [Hin Hb]. split; [exact Hin|apply Hm, Hb]. }
  assert (Hnone : forall l name, (forall b, In b l -> e_name b <> Some name) ->
            find (name_matches name) l = None).
  { intros l name Hn. destruct (find (name_matches name) l) as [b|] eqn:E; [|reflexivity].
    apply find_some in E as [Hin Hb]. apply Hm in Hb. exfalso. exact (Hn b Hin Hb). }
  split; [|split; [|split; [|split; [|split; [|split; [|split]]]]]].
  - intros boards team name b Hin Hb Hu. unfold get_board_id_by_name.
    rewrite (Hfound _ _ _ Hin Hb Hu), Hb. reflexivity.
  - intros cols board_id name c Hin Hc Hu. unfold get_column_id_by_name.
    rewrite (Hfound _ _ _ Hin Hc Hu), Hc. reflexivity.
  - intros boards team name i n. unfold get_board_id_by_name.
    destruct (find (name_matches name) boards) as [b|] eqn:E; [|discriminate].
    destruct (Hres _ _ _ E) as [Hin Hb]. rewrite Hb. intros [= <- <-]. eauto.
  - intros cols board_id name i n. unfold get_column_id_by_name.
    destruct (find (name_matches name) cols) as [c|] eqn:E; [|discriminate].
    destruct (Hres _ _ _ E) as [Hin Hc]. rewrite Hc. intros [= <- <-]. eauto.
  - intros boards team name Hn. unfold get_board_id_by_name. rewrite (Hnone _ _ Hn). reflexivity.
  - intros cols board_id name Hn. unfold get_column_id_by_name. rewrite (Hnone _ _ Hn). reflexivity.
  - reflexivity.
  - reflexivity.
Qed.

(** ** Notifier *)

(** C7 (counterexample): a webhook answer with a failure status (HTTP 500)
    is a failed delivery, yet [post_to_slack] prints no warning: it only
    catches exceptions of [requests.post] and never looks at the status. *)
Lemma post_to_slack_http_500_no_warning :
  ~ (forall env text st,
       delivery_failed (env_slack env text) = true ->
       exists e, In (EvWarn e) (out (fst (post_to_slack env text st)))).
Proof.
  intros H.
  destruct (H (scn_env (Responded (mkResponse 500 "invalid_payload"))) "hello"
              (mkSt ∅ []) eq_refl) as [e He].
  simpl in He. destruct He as [He|[]]. discriminate.
Qed.

(** C7 (amended): [post_to_slack] always returns normally and leaves
    [seen_ids] alone; it prints a warning exactly when [requests.post]
    raises (e.g. a timeout).  An item in [seen_ids] stays there for the rest
    of the run and is never fetched or notified again.  Scenario: the
    webhook times out on every post: both new items are notified once with a
    warning each, the cycle ends normally, and the next cycle over the same
    answer notifies nothing. *)
Theorem post_to_slack_best_effort :
  (forall env text st,
     post_to_slack env text st =
       (mkSt (seen_ids st)
             (out st ++ EvSlackPost text ::
                match env_slack env text with
                | Raised e => [EvWarn e]
                | Responded _ => []
                end), inr tt)) /\
  (forall pred envs st st' r w,
     poll_loop pred envs st = (st', r) -> w ∈ seen_ids st ->
     r = inr tt /\ w ∈ seen_ids st' /\
     exists tr, out st' = out st ++ tr /\ ~ In (EvNotify w) tr /\ ~ In (EvFetch w) tr) /\
  poll_loop scn_pred [scn_env (Raised Timeout); scn_env (Raised Timeout)] (mkSt ∅ []) =
    (mkSt {[101; 102]}
       [EvQuery scn_query;
        EvSeenAdd 101; EvFetch 101; EvNotify 101; EvSlackPost (scn_text 101); EvWarn Timeout;
        EvSeenAdd 102; EvFetch 102; EvNotify 102; EvSlackPost (scn_text 102); EvWarn Timeout;
        EvSleep POLL_INTERVAL;
        EvQuery scn_query; EvSleep POLL_INTERVAL], inr tt).
Proof.
  split; [|split; [|vm_compute; reflexivity]].
  - intros env text st. unfold post_to_slack. unfold_M. cbn.
    destruct (env_slack env text); cbn; rewrite <- ?app_assoc; reflexivity.
  - intros pred envs st st' r w H Hw.
    pose proof (poll_loop_total pred envs st) as Hr. rewrite H in Hr. simpl in Hr.
    destruct (poll_loop_Inv _ _ _ _ _ _ _ (Inv_refl st) H) as [Hsub [tr (Ho & Hex & _)]].
    split; [exact Hr|]. split; [set_solver|].
    exists tr. split; [exact Ho|]. destruct (Hex w Hw) as (A & _ & C). tauto.
Qed.

(** ** HTTP helper *)

(** C8 (counterexample): a response that is not 2xx, here 304 with an
    empty body, does not make [_request] fail: [raise_for_status] only
    raises on 4xx and 5xx, and the call returns the empty structure. *)
Lemma request_304_not_raised :
  ~ (forall send json_loads method path resp,
       send method (request_url path) = inr resp ->
       http_success (status_code resp) = false ->
       _request send json_loads method path = inl (HTTPError resp)).
Proof.
  intros H.
  specialize (H (fun _ _ => inr (mkResponse 304 "")) (fun _ => inl JSONDecodeError)
                "GET" "OmniStack/_apis/wit/workitems/102" (mkResponse 304 "") eq_refl eq_refl).
  vm_compute in H. discriminate.
Qed.

(** C8 (amended): for a call that gets a response, a 4xx or 5xx status
    fails with [HTTPError] carrying the response (status and body); any other
    status counts as success: an empty body gives the empty structure [{}],
    any other body is decoded by [resp.json()] (which raises on a body that
    is not JSON). *)
Theorem request_status_and_body :
  forall send json_loads method path resp,
    send method (request_url path) = inr resp ->
    _request send json_loads method path =
      if (400 <=? status_code resp) && (status_code resp <? 600) then inl (HTTPError resp)
      else if String.eqb (content resp) "" then inr (JObj [])
      else json_loads (content resp).
Proof.
  intros send json_loads method path resp Hs.
  unfold _request, raise_for_status. rewrite Hs.
  destruct (400 <=? status_code resp) eqn:E1, (status_code resp <? 500) eqn:E2,
           (500 <=? status_code resp) eqn:E3, (status_code resp <? 600) eqn:E4;
    cbn; try reflexivity;
    try (apply Z.leb_le in E1); try (apply Z.leb_gt in E1);
    try (apply Z.ltb_lt in E2); try (apply Z.ltb_ge in E2);
    try (apply Z.leb_le in E3); try (apply Z.leb_gt in E3);
    try (apply Z.ltb_lt in E4); try (apply Z.ltb_ge in E4);
    try lia;
    destruct (String.eqb (content resp) ""); reflexivity.
Qed.

Lemma request_status_and_body_witness :
  (fun (_ _ : string) => inr (mkResponse 404 "{}") : Exc + Response) "GET"
      (request_url "OmniStack/_apis/wit/workitems/7") = inr (mkResponse 404 "{}") /\
  _request (fun _ _ => inr (mkResponse 404 "{}")) (fun _ => inr (JObj [])) "GET"
      "OmniStack/_apis/wit/workitems/7" = inl (HTTPError (mkResponse 404 "{}")).
Proof.
  split; [reflexivity|].
  exact (request_status_and_body (fun _ _ => inr (mkResponse 404 "{}")) (fun _ => inr (JObj []))
           "GET" "OmniStack/_apis/wit/workitems/7" (mkResponse 404 "{}") eq_refl).
Defined.

(* ================================================================== *)
(** * Further properties of the code *)

(** ** Helper lemmas *)

Lemma lstrip_slash_slashes n p : lstrip_slash (slashes n +:+ p) = lstrip_slash p.
Proof. induction n as [|n IH]; [reflexivity|exact IH]. Qed.

Lemma lstrip_slash_rest p : (forall t, p <> "/" +:+ t) -> lstrip_slash p = p.
Proof.
  destruct p as [|c t]; intros H; [reflexivity|]. simpl.
  destruct (Ascii.eqb_spec c "/"%char) as [->|_]; [|reflexivity].
  exfalso. exact (H t eq_refl).
Qed.

Lemma slashes_split p :
  exists n rest, p = slashes n +:+ rest /\ (forall t, rest <> "/" +:+ t).
Proof.
  induction p as [|c p IH].
  - exists O, EmptyString. split; [reflexivity|]. intros t; discriminate.
  - destruct (Ascii.eqb_spec c "/"%char) as [->|Hc].
    + destruct IH as (n & rest & -> & Hr). exists (S n), rest. split; [reflexivity|exact Hr].
    + exists O, (String c p). split; [reflexivity|]. intros t [= E _]. exact (Hc E).
Qed.

Lemma request_no_error_empty send json_loads method path resp :
  send method (request_url path) = inr resp ->
  (200 <=? status_code resp) && (status_code resp <? 400) = true ->
  content resp = "" ->
  _request send json_loads method path = inr (JObj []).
Proof.
  intros Hs Hst Hc. unfold _request, raise_for_status. rewrite Hs, Hc.
  apply andb_prop in Hst as [H1 H2]. apply Z.leb_le in H1. apply Z.ltb_lt in H2.
  replace (400 <=? status_code resp) with false by (symmetry; apply Z.leb_gt; lia).
  replace (500 <=? status_code resp) with false by (symmetry; apply Z.leb_gt; lia).
  reflexivity.
Qed.

Lemma get_board_id_by_name_eq send json_loads project team name log :
  Startup.get_board_id_by_name send json_loads project team name log =
  (log ++ [BReq "GET" (request_url (project +:+ "/" +:+ team +:+ "/_apis/work/boards"))],
   data ← _request send json_loads "GET" (project +:+ "/" +:+ team +:+ "/_apis/work/boards");
   boards ← dict_get_or data "value" (JArr []);
   pick_board boards team name).
Proof.
  unfold Startup.get_board_id_by_name, Startup.get_team_boards, Startup.azure_get,
    Startup.request, blift, mbind, BM_bind, Exc_bind.
  destruct (_request _ _ _ _) as [e|data]; [reflexivity|].
  destruct (dict_get_or data "value" (JArr [])); reflexivity.
Qed.

Lemma get_column_id_by_name_eq send json_loads project team board_id name log :
  Startup.get_column_id_by_name send json_loads project team board_id name log =
  (log ++ [BReq "GET" (request_url (project +:+ "/" +:+ team +:+ "/_apis/work/boards/"
                                     +:+ py_str board_id +:+ "/columns"))],
   data ← _request send json_loads "GET" (project +:+ "/" +:+ team +:+ "/_apis/work/boards/"
                                     +:+ py_str board_id +:+ "/columns");
   cols ← dict_get_or data "value" (JArr []);
   pick_column cols board_id name).
Proof.
  unfold Startup.get_column_id_by_name, Startup.get_board_columns, Startup.azure_get,
    Startup.request, blift, mbind, BM_bind, Exc_bind.
  destruct (_request _ _ _ _) as [e|data]; [reflexivity|].
  destruct (dict_get_or data "value" (JArr [])); reflexivity.
Qed.

Lemma get_team_area_predicate_eq send json_loads project team log :
  Startup.get_team_area_predicate send json_loads project team log =
  (log ++ [BReq "GET" (request_url (project +:+ "/" +:+ team
                                     +:+ "/_apis/work/teamsettings/teamfieldvalues"))],
   data ← _request send json_loads "GET" (project +:+ "/" +:+ team
                                     +:+ "/_apis/work/teamsettings/teamfieldvalues");
   area_predicate_of data).
Proof.
  unfold Startup.get_team_area_predicate, Startup.azure_get,
    Startup.request, blift, mbind, BM_bind, Exc_bind.
  destruct (_request _ _ _ _); reflexivity.
Qed.

Lemma dict_lookup_nonempty k kvs v : dict_lookup k kvs = Some v -> py_truthy (JObj kvs) = true.
Proof. destruct kvs; [discriminate|reflexivity]. Qed.

Lemma next_named_skip name pre l :
  forallb (named_other name) pre = true -> next_named name (pre ++ l) = next_named name l.
Proof.
  induction pre as [|x pre IH]; intros H; [reflexivity|].
  simpl in H. apply andb_prop in H as [Hx H].
  destruct x as [| | | | |kvs]; try discriminate. simpl.
  unfold named_other in Hx. apply negb_true_iff in Hx. rewrite Hx. exact (IH H).
Qed.

Lemma next_named_bad name x post :
  is_obj x = false -> next_named name (x :: post) = inl AttributeError.
Proof. destruct x; first [discriminate | reflexivity]. Qed.

Lemma names_of_skip pre :
  forallb is_obj pre = true -> exists ns, names_of pre = inr ns.
Proof.
  induction pre as [|x pre IH]; intros H; [eauto|].
  simpl in H. apply andb_prop in H as [Hx H]. destruct (IH H) as [ns Hns].
  destruct x; try discriminate. simpl. rewrite Hns. eauto.
Qed.

Lemma named_other_obj name pre : forallb (named_other name) pre = true -> forallb is_obj pre = true.
Proof.
  induction pre as [|x pre IH]; [reflexivity|]. simpl.
  intros H. apply andb_prop in H as [Hx H]. rewrite (IH H).
  destruct x; first [discriminate | reflexivity].
Qed.

Lemma opt_name_json_eq name b :
  json_eq_str (default JNull (dict_lookup "name"
     (("id", e_id b) :: match e_name b with Some n => [("name", JStr n)] | None => [] end))) name
  = name_matches name b.
Proof. unfold name_matches. destruct (e_name b); reflexivity. Qed.

Lemma next_named_entries name l :
  next_named name (map entry_to_json l) = inr (option_map entry_to_json (find (name_matches name) l)).
Proof.
  induction l as [|b l IH]; [reflexivity|].
  cbn [map next_named find]. unfold entry_to_json at 1. cbn [app dict_get].
  rewrite <- (opt_name_json_eq name b). simpl default.
  destruct (json_eq_str _ name); [reflexivity|exact IH].
Qed.

Lemma names_of_entries l :
  names_of (map entry_to_json l) =
  inr (map (fun b => match e_name b with Some n => JStr n | None => JNull end) l).
Proof.
  induction l as [|b l IH]; [reflexivity|].
  cbn [map names_of]. rewrite IH. unfold entry_to_json. destruct (e_name b); reflexivity.
Qed.

Lemma py_repr_names l :
  py_repr (JArr (map (fun b => match e_name b with Some n => JStr n | None => JNull end) l))
  = py_repr_list (map e_name l).
Proof.
  change (py_repr (JArr ?x)) with ("[" +:+ py_join ", " (map py_repr x) +:+ "]").
  unfold py_repr_list. rewrite !map_map. do 3 f_equal.
  apply map_ext. intros b. destruct (e_name b); reflexivity.
Qed.

Lemma entry_found name b :
  name_matches name b = true ->
  py_truthy_opt (Some (entry_to_json b)) = true /\
  getitem (entry_to_json b) "id" = inr (e_id b) /\
  getitem (entry_to_json b) "name" = inr (JStr name) /\
  default "" (e_name b) = name.
Proof.
  unfold name_matches, entry_to_json. destruct (e_name b) as [n|]; [|discriminate].
  intros E. apply String.eqb_eq in E as ->. repeat split; reflexivity.
Qed.

Lemma tfv_to_json_value v :
  dict_get (tfv_to_json v) "value" =
  inr (match tfv_value v with Some s => JStr s | None => JNull end).
Proof. unfold tfv_to_json. destruct (tfv_value v), (tfv_includeChildren v); reflexivity. Qed.

Lemma tfv_to_json_include v :
  dict_get_or (tfv_to_json v) "includeChildren" (JBool false) =
  inr (JBool (default false (tfv_includeChildren v))).
Proof. unfold tfv_to_json. destruct (tfv_value v), (tfv_includeChildren v); reflexivity. Qed.

Lemma area_parts_j_tfv l :
  area_parts_j (map tfv_to_json l) = inr (area_parts l).
Proof.
  induction l as [|v l IH]; [reflexivity|].
  cbn [map area_parts_j area_parts]. rewrite tfv_to_json_value, tfv_to_json_include.
  destruct (tfv_value v) as [s|]; cbn [py_truthy path_falsy negb default from_option id];
    [|exact IH].
  destruct (String.eqb s ""); cbn [negb]; [exact IH|].
  rewrite IH. destruct (default false (tfv_includeChildren v)); reflexivity.
Qed.

Lemma area_parts_j_skip pre l e :
  forallb is_obj pre = true -> area_parts_j l = inl e -> area_parts_j (pre ++ l) = inl e.
Proof.
  induction pre as [|x pre IH]; intros H Hl; [exact Hl|].
  simpl in H. apply andb_prop in H as [Hx H].
  destruct x as [| | | | |kvs]; try discriminate. cbn [app area_parts_j dict_get dict_get_or].
  destruct (negb (py_truthy _)); [exact (IH H Hl)|]. rewrite (IH H Hl). reflexivity.
Qed.

Lemma area_parts_j_unusable l : forallb unusable_j l = true -> area_parts_j l = inr [].
Proof.
  induction l as [|x l IH]; intros H; [reflexivity|].
  simpl in H. apply andb_prop in H as [Hx H].
  destruct x as [| | | | |kvs]; try discriminate. cbn [area_parts_j dict_get dict_get_or].
  unfold unusable_j in Hx. rewrite Hx. exact (IH H).
Qed.

Lemma poll_loop_queries pred envs :
  forall st st' r, poll_loop pred envs st = (st', r) ->
  forall q, In (EvQuery q) (out st') ->
  In (EvQuery q) (out st) \/ q = wiql_text AZURE_PROJ COLUMN_NAME pred.
Proof.
  unfold poll_loop. induction envs as [|env t IH]; intros st st' r H q Hq.
  - cbn in H. unfold mret, M_ret in H. injection H as <- _. left; exact Hq.
  - cbn [for_] in H. unfold mbind, M_bind in H.
    destruct (poll_cycle env pred st) as [s1 r1] eqn:E.
    destruct (poll_cycle_shape _ _ _ _ _ E) as [-> (x & Ho & Hx)].
    destruct (IH _ _ _ H q Hq) as [Hin|Heq]; [|right; exact Heq].
    rewrite Ho in Hin. apply in_app_iff in Hin as [Hin|Hin]; [left; exact Hin|].
    destruct Hin as [Hin|Hin]; [right; congruence|].
    apply in_app_iff in Hin as [Hin|[Hin|[]]]; [exfalso; exact (Hx q Hin)|discriminate].
Qed.

(** ** URLs and the HTTP wrappers *)

(** [_request] builds the URL from the organisation base, one "/", and the
    path with every leading "/" removed: any path is [n] slashes followed by
    a [rest] that does not start with "/", and its URL is the base, "/" and
    [rest]; so adding leading slashes to a path does not change its URL. *)
Theorem request_url_strips_leading_slashes :
  (forall p, exists n rest,
     p = slashes n +:+ rest /\ (forall t, rest <> "/" +:+ t) /\
     request_url p = "https://dev.azure.com/WFRD-RDE-DWC-Software/" +:+ rest) /\
  (forall n p, request_url (slashes n +:+ p) = request_url p).
Proof.
  split.
  - intros p. destruct (slashes_split p) as (n & rest & Ep & Hr).
    exists n, rest. split; [exact Ep|]. split; [exact Hr|].
    unfold request_url. rewrite Ep, lstrip_slash_slashes, (lstrip_slash_rest _ Hr). reflexivity.
  - intros n p. unfold request_url. rewrite lstrip_slash_slashes. reflexivity.
Qed.

(** When the server answers the boards and columns GETs with an empty body
    and a status [raise_for_status] lets through (2xx, 3xx), [_request]
    gives [{}], [data.get("value", [])] gives [[]], and the lookup raises
    [RuntimeError] listing no available names. *)
Theorem lookups_on_empty_answer :
  forall send json_loads resp,
    (forall u, send "GET" u = inr resp) ->
    (200 <=? status_code resp) && (status_code resp <? 400) = true ->
    content resp = "" ->
    forall project team name board_id column_name,
      snd (Startup.get_board_id_by_name send json_loads project team name []) =
        inl (RuntimeError ("Board '" +:+ name +:+ "' not found for team '" +:+ team
                             +:+ "'. Available: []")) /\
      snd (Startup.get_column_id_by_name send json_loads project team board_id column_name []) =
        inl (RuntimeError ("Column '" +:+ column_name +:+ "' not found on board id "
                             +:+ py_str board_id +:+ ". Available: []")).
Proof.
  intros send json_loads resp Hs Hst Hc project team name board_id column_name.
  rewrite get_board_id_by_name_eq, get_column_id_by_name_eq. cbn [snd].
  rewrite !(request_no_error_empty send json_loads "GET" _ resp (Hs _) Hst Hc).
  split; reflexivity.
Qed.

Lemma lookups_on_empty_answer_witness :
  (forall u, (fun (_ _ : string) => inr (mkResponse 204 "")) "GET" u = (inr (mkResponse 204 "") : Exc + Response)) /\
  (200 <=? status_code (mkResponse 204 "")) && (status_code (mkResponse 204 "") <? 400) = true /\
  content (mkResponse 204 "") = "" /\
  snd (Startup.get_board_id_by_name (fun (_ _ : string) => inr (mkResponse 204 "")) (fun _ : string => inl JSONDecodeError)
         AZURE_PROJ TEAM_NAME BOARD_NAME []) =
    inl (RuntimeError "Board 'Stories' not found for team 'WASP'. Available: []").
Proof.
  split; [intros u; reflexivity|]. split; [reflexivity|]. split; [reflexivity|].
  exact (proj1 (lookups_on_empty_answer (fun (_ _ : string) => inr (mkResponse 204 "")) (fun _ : string => inl JSONDecodeError)
           (mkResponse 204 "") (fun u => eq_refl) eq_refl eq_refl
           AZURE_PROJ TEAM_NAME BOARD_NAME (JNum 0) COLUMN_NAME)).
Defined.

(** ** Board and column lookup on the decoded answer *)

(** On a decoded [value] list of well-formed entries (dicts with an [id]
    and a string [name] or none), the JSON-level lookups give what the
    entry-level [get_board_id_by_name] / [get_column_id_by_name] give: the
    same id and name, or the same [RuntimeError] message. *)
Theorem pick_agrees_with_entry_lookup :
  (forall boards team name,
     pick_board (JArr (map entry_to_json boards)) team name =
       match get_board_id_by_name boards team name with
       | inl e => inl e
       | inr (i, n) => inr (i, JStr n)
       end) /\
  (forall cols board_id name,
     pick_column (JArr (map entry_to_json cols)) board_id name =
       match get_column_id_by_name cols board_id name with
       | inl e => inl e
       | inr (i, n) => inr (i, JStr n)
       end).
Proof.
  split.
  - intros boards team name. unfold pick_board, get_board_id_by_name.
    cbn [mbind Exc_bind py_iter]. rewrite next_named_entries. cbn [mbind Exc_bind].
    destruct (find (name_matches name) boards) as [b|] eqn:E; cbn [option_map].
    + apply find_some in E as [_ Hm].
      destruct (entry_found name b Hm) as (-> & Hi & Hn & ->).
      cbn [negb default from_option id]. rewrite Hi. cbn [mbind Exc_bind]. rewrite Hn. reflexivity.
    + cbn [py_truthy_opt negb]. rewrite names_of_entries. cbn [mbind Exc_bind].
      rewrite py_repr_names. reflexivity.
  - intros cols board_id name. unfold pick_column, get_column_id_by_name.
    cbn [mbind Exc_bind py_iter]. rewrite next_named_entries. cbn [mbind Exc_bind].
    destruct (find (name_matches name) cols) as [c|] eqn:E; cbn [option_map].
    + apply find_some in E as [_ Hm].
      destruct (entry_found name c Hm) as (-> & Hi & Hn & ->).
      cbn [negb default from_option id]. rewrite Hi. cbn [mbind Exc_bind]. rewrite Hn. reflexivity.
    + cbn [py_truthy_opt negb]. rewrite names_of_entries. cbn [mbind Exc_bind].
      rewrite py_repr_names. reflexivity.
Qed.

(** When several entries are named [name], the first one wins; the entries
    after it are never looked at (they may be anything, even not dicts).
    The result is that entry's [id] with the name, or [KeyError 'id'] when
    it has no [id]. *)
Theorem pick_first_match :
  forall team name board_id pre kvs post,
    forallb (named_other name) pre = true ->
    dict_lookup "name" kvs = Some (JStr name) ->
    pick_board (JArr (pre ++ JObj kvs :: post)) team name =
      match dict_lookup "id" kvs with
      | Some i => inr (i, JStr name)
      | None => inl (KeyError "id")
      end /\
    pick_column (JArr (pre ++ JObj kvs :: post)) board_id name =
      match dict_lookup "id" kvs with
      | Some i => inr (i, JStr name)
      | None => inl (KeyError "id")
      end.
Proof.
  intros team name board_id pre kvs post Hpre Hn.
  assert (Hnext : next_named name (pre ++ JObj kvs :: post) = inr (Some (JObj kvs))).
  { rewrite (next_named_skip _ _ _ Hpre). cbn. rewrite Hn. cbn.
    rewrite String.eqb_refl. reflexivity. }
  assert (Ht : py_truthy_opt (Some (JObj kvs)) = true)
    by exact (dict_lookup_nonempty _ _ _ Hn).
  unfold pick_board, pick_column. cbn [mbind Exc_bind py_iter].
  rewrite Hnext. cbn [mbind Exc_bind]. rewrite Ht. cbn [negb default from_option id getitem].
  rewrite Hn. destruct (dict_lookup "id" kvs); cbn [mbind Exc_bind]; rewrite ?Hn; split; reflexivity.
Qed.

Lemma pick_first_match_witness :
  forallb (named_other "Stories") [JObj [("id", JNum 1); ("name", JStr "Backlog")]] = true /\
  dict_lookup "name" [("id", JNum 2); ("name", JStr "Stories")] = Some (JStr "Stories") /\
  pick_board (JArr ([JObj [("id", JNum 1); ("name", JStr "Backlog")]] ++
                    JObj [("id", JNum 2); ("name", JStr "Stories")] ::
                    [JNum 42; JObj [("id", JNum 3); ("name", JStr "Stories")]]))
    TEAM_NAME "Stories" = inr (JNum 2, JStr "Stories").
Proof.
  split; [reflexivity|]. split; [reflexivity|].
  exact (proj1 (pick_first_match TEAM_NAME "Stories" (JNum 0)
           [JObj [("id", JNum 1); ("name", JStr "Backlog")]]
           [("id", JNum 2); ("name", JStr "Stories")]
           [JNum 42; JObj [("id", JNum 3); ("name", JStr "Stories")]] eq_refl eq_refl)).
Defined.

(** An entry of the [value] list that is not a dict (a number, a string, a
    list, null), met before any entry with the wanted name, makes the lookup
    raise [AttributeError] (from [b.get]); it never reports "not found". *)
Theorem pick_non_dict_entry :
  forall team name board_id pre x post,
    forallb (named_other name) pre = true ->
    is_obj x = false ->
    pick_board (JArr (pre ++ x :: post)) team name = inl AttributeError /\
    pick_column (JArr (pre ++ x :: post)) board_id name = inl AttributeError.
Proof.
  intros team name board_id pre x post Hpre Hx.
  unfold pick_board, pick_column. cbn [mbind Exc_bind py_iter].
  rewrite (next_named_skip _ _ _ Hpre), (next_named_bad _ _ _ Hx). split; reflexivity.
Qed.

Lemma pick_non_dict_entry_witness :
  forallb (named_other "Stories") [JObj [("id", JNum 1); ("name", JStr "Backlog")]] = true /\
  is_obj (JStr "Stories") = false /\
  pick_board (JArr ([JObj [("id", JNum 1); ("name", JStr "Backlog")]] ++
                    JStr "Stories" :: [JObj [("id", JNum 3); ("name", JStr "Stories")]]))
    TEAM_NAME "Stories" = inl AttributeError.
Proof.
  split; [reflexivity|]. split; [reflexivity|].
  exact (proj1 (pick_non_dict_entry TEAM_NAME "Stories" (JNum 0)
           [JObj [("id", JNum 1); ("name", JStr "Backlog")]] (JStr "Stories")
           [JObj [("id", JNum 3); ("name", JStr "Stories")]] eq_refl eq_refl)).
Defined.

(** ** Area-scope predicate on the decoded answer *)

(** On the decoded form of a team settings answer (entries with a string
    [value] or none, a boolean [includeChildren] or none), the JSON-level
    code gives the predicate of the entry-level [get_team_area_predicate]. *)
Theorem area_predicate_agrees :
  forall ts, area_predicate_of (ts_to_json ts) = inr (get_team_area_predicate ts).
Proof.
  intros [[l|]]; unfold area_predicate_of, ts_to_json, get_team_area_predicate;
    cbn [mbind Exc_bind dict_get_or dict_lookup ts_values default from_option id]; simpl String.eqb;
    cbn [default from_option id]; [|reflexivity].
  destruct l as [|v l]; [reflexivity|].
  cbn [mbind py_truthy negb py_iter Exc_bind]. rewrite area_parts_j_tfv. cbn [mbind Exc_bind].
  destruct (area_parts (v :: l)); reflexivity.
Qed.

(** The project fallback comes from a [values] key that is missing, null,
    an empty dict or list, or a list whose entries are all dicts without a
    usable [value]. *)
Theorem area_predicate_fallback_cases :
  forall kvs,
    (dict_lookup "values" kvs = None \/ dict_lookup "values" kvs = Some JNull \/
     dict_lookup "values" kvs = Some (JObj []) \/
     exists l, dict_lookup "values" kvs = Some (JArr l) /\ forallb unusable_j l = true) ->
    area_predicate_of (JObj kvs) = inr "[System.TeamProject] = 'OmniStack'".
Proof.
  intros kvs H. unfold area_predicate_of. cbn [mbind Exc_bind dict_get_or].
  destruct H as [E|[E|[E|(l & E & Hl)]]]; rewrite E; try reflexivity.
  cbn [default from_option id]. destruct l as [|v l]; [reflexivity|].
  cbn [mbind py_truthy negb py_iter Exc_bind]. rewrite (area_parts_j_unusable _ Hl). reflexivity.
Qed.

Lemma area_predicate_fallback_cases_witness :
  (dict_lookup "values" [("values", JArr [JObj [("value", JStr ""); ("includeChildren", JBool true)]])]
     = None \/
   dict_lookup "values" [("values", JArr [JObj [("value", JStr ""); ("includeChildren", JBool true)]])]
     = Some JNull \/
   dict_lookup "values" [("values", JArr [JObj [("value", JStr ""); ("includeChildren", JBool true)]])]
     = Some (JObj []) \/
   exists l, dict_lookup "values"
               [("values", JArr [JObj [("value", JStr ""); ("includeChildren", JBool true)]])]
             = Some (JArr l) /\ forallb unusable_j l = true) /\
  area_predicate_of (JObj [("values", JArr [JObj [("value", JStr ""); ("includeChildren", JBool true)]])])
    = inr "[System.TeamProject] = 'OmniStack'".
Proof.
  assert (H : dict_lookup "values" [("values", JArr [JObj [("value", JStr ""); ("includeChildren", JBool true)]])]
     = None \/
   dict_lookup "values" [("values", JArr [JObj [("value", JStr ""); ("includeChildren", JBool true)]])]
     = Some JNull \/
   dict_lookup "values" [("values", JArr [JObj [("value", JStr ""); ("includeChildren", JBool true)]])]
     = Some (JObj []) \/
   exists l, dict_lookup "values"
               [("values", JArr [JObj [("value", JStr ""); ("includeChildren", JBool true)]])]
             = Some (JArr l) /\ forallb unusable_j l = true).
  { right; right; right. eexists; split; reflexivity. }
  split; [exact H|]. exact (area_predicate_fallback_cases _ H).
Defined.

(** An entry of [values] that is not a dict makes the predicate builder raise
    [AttributeError] (from [v.get]), whatever the other entries are. *)
Theorem area_predicate_non_dict_entry :
  forall kvs pre x post,
    dict_lookup "values" kvs = Some (JArr (pre ++ x :: post)) ->
    forallb is_obj pre = true -> is_obj x = false ->
    area_predicate_of (JObj kvs) = inl AttributeError.
Proof.
  intros kvs pre x post E Hpre Hx. unfold area_predicate_of. cbn [mbind Exc_bind dict_get_or].
  rewrite E. cbn [default from_option id].
  replace (py_truthy (JArr (pre ++ x :: post))) with true by (destruct pre; reflexivity).
  cbn [mbind negb py_iter Exc_bind].
  rewrite (area_parts_j_skip pre (x :: post) AttributeError Hpre); [reflexivity|].
  destruct x; first [discriminate | reflexivity].
Qed.

Lemma area_predicate_non_dict_entry_witness :
  dict_lookup "values" [("values", JArr ([JObj [("value", JStr "OmniStack\WASP")]] ++
                                          JStr "OmniStack\Other" :: []))]
    = Some (JArr ([JObj [("value", JStr "OmniStack\WASP")]] ++ JStr "OmniStack\Other" :: [])) /\
  area_predicate_of (JObj [("values", JArr ([JObj [("value", JStr "OmniStack\WASP")]] ++
                                             JStr "OmniStack\Other" :: []))])
    = inl AttributeError.
Proof.
  split; [reflexivity|].
  exact (area_predicate_non_dict_entry
           [("values", JArr ([JObj [("value", JStr "OmniStack\WASP")]] ++
                             JStr "OmniStack\Other" :: []))]
           [JObj [("value", JStr "OmniStack\WASP")]]
           (JStr "OmniStack\Other") [] eq_refl eq_refl eq_refl).
Defined.

(** When the [teamfieldvalues] GET answers 4xx or 5xx, the predicate builder
    raises that [HTTPError]: there is no fallback to the project scope for
    settings that cannot be read. *)
Theorem area_predicate_http_error :
  forall send json_loads project team resp,
    send "GET" (request_url (project +:+ "/" +:+ team
                               +:+ "/_apis/work/teamsettings/teamfieldvalues")) = inr resp ->
    (400 <=? status_code resp) && (status_code resp <? 600) = true ->
    snd (Startup.get_team_area_predicate send json_loads project team []) = inl (HTTPError resp).
Proof.
  intros send json_loads project team resp Hs Hst.
  rewrite get_team_area_predicate_eq. cbn [snd].
  unfold _request at 1. rewrite Hs. unfold raise_for_status.
  apply andb_prop in Hst as [H1 H2]. apply Z.leb_le in H1. apply Z.ltb_lt in H2.
  destruct (status_code resp <? 500) eqn:E.
  - rewrite (proj2 (Z.leb_le 400 _) H1). reflexivity.
  - apply Z.ltb_ge in E.
    replace ((400 <=? status_code resp) && false) with false by (destruct (400 <=? _); reflexivity).
    rewrite (proj2 (Z.leb_le 500 _) E), (proj2 (Z.ltb_lt _ 600) H2). reflexivity.
Qed.

Lemma area_predicate_http_error_witness :
  (fun (_ _ : string) => inr (mkResponse 403 "Forbidden") : Exc + Response) "GET"
    (request_url (AZURE_PROJ +:+ "/" +:+ TEAM_NAME +:+ "/_apis/work/teamsettings/teamfieldvalues"))
    = inr (mkResponse 403 "Forbidden") /\
  (400 <=? status_code (mkResponse 403 "Forbidden")) && (status_code (mkResponse 403 "Forbidden") <? 600)
    = true /\
  snd (Startup.get_team_area_predicate (fun (_ _ : string) => inr (mkResponse 403 "Forbidden"))
         (fun _ : string => inr (JObj [])) AZURE_PROJ TEAM_NAME [])
    = inl (HTTPError (mkResponse 403 "Forbidden")).
Proof.
  split; [reflexivity|]. split; [reflexivity|].
  exact (area_predicate_http_error (fun (_ _ : string) => inr (mkResponse 403 "Forbidden")) (fun _ : string => inr (JObj []))
           AZURE_PROJ TEAM_NAME (mkResponse 403 "Forbidden") eq_refl eq_refl).
Defined.

(** ** Poll loop: items whose details cannot be read *)

Lemma process_item_fetch_fails env w e s :
  w ∉ seen_ids s -> env_work_item env w = inl e ->
  process_item env w s =
    (mkSt ({[w]} ∪ seen_ids s) (out s ++ [EvSeenAdd w; EvFetch w]), inl e).
Proof.
  intros Hs He. unfold process_item, get_work_item. unfold_M. cbn.
  destruct (decide (w ∈ seen_ids s)); [contradiction|]. cbn. rewrite He.
  rewrite <- app_assoc. reflexivity.
Qed.

Lemma for_prefix_ok {A} (f : A -> M unit) pre l :
  forall s s', for_ pre f s = (s', inr tt) -> for_ (pre ++ l) f s = for_ l f s'.
Proof.
  induction pre as [|i t IH]; intros s s' H.
  - cbn in H. unfold mret, M_ret in H. injection H as <-. reflexivity.
  - cbn [for_ app] in *. unfold mbind, M_bind in *.
    destruct (f i s) as [s1 [e|[]]]; [discriminate|]. exact (IH _ _ H).
Qed.

(** In any cycle (the cycle starts in [st]), a new item [w] whose work
    item GET raises is added to [seen_ids] right before the GET; the GET's
    exception ends the cycle, which prints it and sleeps; and for the rest
    of the run [w] is never fetched again and never notified.  [pre] are the
    items of the answer before [w]: they were processed without raising. *)
Theorem failed_fetch_item_never_notified :
  forall pred env envs st pre w post s_pre e st' r,
    env_wiql env (wiql_text AZURE_PROJ COLUMN_NAME pred) = inr (pre ++ w :: post) ->
    for_ pre (process_item env)
      (mkSt (seen_ids st) (out st ++ [EvQuery (wiql_text AZURE_PROJ COLUMN_NAME pred)]))
      = (s_pre, inr tt) ->
    w ∉ seen_ids s_pre ->
    env_work_item env w = inl e ->
    poll_loop pred (env :: envs) st = (st', r) ->
    (exists x, out st' = out s_pre ++ [EvSeenAdd w; EvFetch w; EvError e; EvSleep POLL_INTERVAL]
                          ++ x /\ ~ In (EvFetch w) x /\ ~ In (EvNotify w) x) /\
    w ∈ seen_ids st' /\
    (exists tr, out st' = out st ++ tr /\ notifications w tr = 0%nat).
Proof.
  intros pred env envs st pre w post s_pre e st' r Hq Hp Hw He H.
  set (q := wiql_text AZURE_PROJ COLUMN_NAME pred) in *.
  set (sq := mkSt (seen_ids st) (out st ++ [EvQuery q])) in *.
  set (s1 := mkSt ({[w]} ∪ seen_ids s_pre)
                  (out s_pre ++ [EvSeenAdd w; EvFetch w; EvError e; EvSleep POLL_INTERVAL])).
  assert (Hc : poll_cycle env pred st = (s1, inr tt)).
  { rewrite poll_cycle_eq, poll_body_eq. cbv zeta. fold q. fold sq. rewrite Hq.
    rewrite (for_prefix_ok _ _ _ _ _ Hp). cbn [for_]. unfold mbind at 1, M_bind at 1.
    rewrite (process_item_fetch_fails env w e s_pre Hw He). cbn.
    unfold s1. rewrite <- !app_assoc. reflexivity. }
  unfold poll_loop in H. cbn [for_] in H. unfold mbind at 1, M_bind at 1 in H.
  rewrite Hc in H.
  assert (Hw1 : w ∈ seen_ids s1) by (cbn; set_solver).
  destruct (poll_loop_Inv _ _ _ _ _ _ _ (Inv_refl s1) H) as [Hsub [tr2 (Ho & Hex & _)]].
  destruct (Hex w Hw1) as (Hf2 & _ & Hn2).
  assert (HIq : Inv (seen_ids st) st sq) by (apply Inv_emit; [apply Inv_refl|exact I]).
  destruct (for_process_Inv _ _ _ _ _ _ _ HIq Hp) as [_ [trp (Hop & _ & _ & Hnp)]].
  assert (Hz : notifications w trp = 0%nat).
  { destruct (Hnp w) as [Hle Hin].
    destruct (notifications w trp) as [|[|k]] eqn:Ew; [reflexivity| |lia].
    exfalso. apply Hw, Hin. reflexivity. }
  split; [|split].
  - exists tr2. split; [rewrite Ho; cbn; rewrite <- app_assoc; reflexivity|].
    split; assumption.
  - set_solver.
  - exists (trp ++ [EvSeenAdd w; EvFetch w; EvError e; EvSleep POLL_INTERVAL] ++ tr2).
    split; [rewrite Ho; cbn; rewrite Hop; rewrite <- !app_assoc; reflexivity|].
    rewrite !notifications_app, Hz, (notifications_not_in _ _ Hn2). reflexivity.
Qed.

Lemma failed_fetch_item_never_notified_witness :
  env_wiql scn_env_fetch_fails (wiql_text AZURE_PROJ COLUMN_NAME scn_pred) = inr ([102] ++ 7 :: [103]) /\
  for_ [102] (process_item scn_env_fetch_fails)
    (mkSt (seen_ids (mkSt ∅ [])) (out (mkSt ∅ []) ++ [EvQuery (wiql_text AZURE_PROJ COLUMN_NAME scn_pred)]))
    = (mkSt {[102]} [EvQuery scn_query; EvSeenAdd 102; EvFetch 102; EvNotify 102;
                     EvSlackPost (scn_text 102)], inr tt) /\
  (7 ∉ seen_ids (mkSt {[102]} [EvQuery scn_query; EvSeenAdd 102; EvFetch 102; EvNotify 102;
                               EvSlackPost (scn_text 102)])) /\
  env_work_item scn_env_fetch_fails 7 = inl (HTTPError (mkResponse 404 "")) /\
  (exists x, out (fst (poll_loop scn_pred [scn_env_fetch_fails; scn_env_fetch_fails] (mkSt ∅ [])))
             = out (mkSt {[102]} [EvQuery scn_query; EvSeenAdd 102; EvFetch 102; EvNotify 102;
                                  EvSlackPost (scn_text 102)])
               ++ [EvSeenAdd 7; EvFetch 7; EvError (HTTPError (mkResponse 404 ""));
                   EvSleep POLL_INTERVAL] ++ x /\
             ~ In (EvFetch 7) x /\ ~ In (EvNotify 7) x) /\
  7 ∈ seen_ids (fst (poll_loop scn_pred [scn_env_fetch_fails; scn_env_fetch_fails] (mkSt ∅ []))) /\
  (exists tr, out (fst (poll_loop scn_pred [scn_env_fetch_fails; scn_env_fetch_fails] (mkSt ∅ [])))
              = out (mkSt ∅ []) ++ tr /\ notifications 7 tr = 0%nat).
Proof.
  assert (Hp : for_ [102] (process_item scn_env_fetch_fails)
    (mkSt (seen_ids (mkSt ∅ [])) (out (mkSt ∅ []) ++ [EvQuery (wiql_text AZURE_PROJ COLUMN_NAME scn_pred)]))
    = (mkSt {[102]} [EvQuery scn_query; EvSeenAdd 102; EvFetch 102; EvNotify 102;
                     EvSlackPost (scn_text 102)], inr tt)) by (vm_compute; reflexivity).
  assert (Hn : 7 ∉ seen_ids (mkSt {[102]} [EvQuery scn_query; EvSeenAdd 102; EvFetch 102;
                                          EvNotify 102; EvSlackPost (scn_text 102)]))
    by (cbn; set_solver).
  split; [reflexivity|]. split; [exact Hp|]. split; [exact Hn|]. split; [reflexivity|].
  exact (failed_fetch_item_never_notified scn_pred scn_env_fetch_fails [scn_env_fetch_fails]
           (mkSt ∅ []) [102] 7 [103] _ (HTTPError (mkResponse 404 ""))
           (fst (poll_loop scn_pred [scn_env_fetch_fails; scn_env_fetch_fails] (mkSt ∅ [])))
           (snd (poll_loop scn_pred [scn_env_fetch_fails; scn_env_fetch_fails] (mkSt ∅ [])))
           eq_refl Hp Hn eq_refl (surjective_pairing _)).
Defined.

(** ** Poll loop: the message posted for a new item *)

(** For a new item whose details have a [fields] dict and a
    [_links.html.href], [process_item] marks it seen, fetches it and posts
    one message built from [str] of the title and of the link; a missing or
    null [System.Title] is written "None".  A warning follows only when the
    webhook call raises. *)
Theorem new_item_notification_text :
  forall env w st d f l h href,
    w ∉ seen_ids st ->
    env_work_item env w = inr (JObj d) ->
    dict_lookup "fields" d = Some (JObj f) ->
    dict_lookup "_links" d = Some (JObj l) ->
    dict_lookup "html" l = Some (JObj h) ->
    dict_lookup "href" h = Some href ->
    process_item env w st =
      (mkSt ({[w]} ∪ seen_ids st)
         (out st ++
            [EvSeenAdd w; EvFetch w; EvNotify w;
             EvSlackPost (slack_text w (py_str (default JNull (dict_lookup "System.Title" f)))
                                       (py_str href))] ++
            match env_slack env (slack_text w (py_str (default JNull (dict_lookup "System.Title" f)))
                                               (py_str href)) with
            | Raised e => [EvWarn e]
            | Responded _ => []
            end), inr tt).
Proof.
  intros env w st d f l h href Hw He Hf Hl Hh Hr.
  unfold process_item, get_work_item, post_to_slack. unfold_M. cbn.
  destruct (decide (w ∈ seen_ids st)); [contradiction|]. cbn.
  rewrite He. cbn. rewrite Hf. cbn. rewrite Hl. cbn. rewrite Hh. cbn. rewrite Hr. cbn.
  destruct (env_slack env _); cbn; rewrite <- !app_assoc; reflexivity.
Qed.

Lemma new_item_notification_text_witness :
  process_item (mkEnv (fun _ => inr [5]) (fun wid => inr (scn_untitled wid)) (fun _ => scn_ok)) 5
      (mkSt ∅ []) =
    (mkSt ({[5]} ∪ ∅)
       ([] ++ [EvSeenAdd 5; EvFetch 5; EvNotify 5;
               EvSlackPost (slack_text 5 "None" (scn_url 5))] ++ []), inr tt).
Proof.
  assert (Hn : 5 ∉ seen_ids (mkSt ∅ [])) by (cbn; set_solver).
  exact (new_item_notification_text
           (mkEnv (fun _ => inr [5]) (fun wid => inr (scn_untitled wid)) (fun _ => scn_ok)) 5
           (mkSt ∅ []) _ [] _ _ (JStr (scn_url 5)) Hn eq_refl eq_refl eq_refl eq_refl eq_refl).
Defined.

(** ** [__main__]: startup and the loop *)

Lemma get_board_id_by_name_log send json_loads project team name log :
  Startup.get_board_id_by_name send json_loads project team name log =
  (log ++ [BReq "GET" (request_url (project +:+ "/" +:+ team +:+ "/_apis/work/boards"))],
   snd (Startup.get_board_id_by_name send json_loads project team name [])).
Proof. rewrite !get_board_id_by_name_eq. reflexivity. Qed.

Lemma get_column_id_by_name_log send json_loads project team board_id name log :
  Startup.get_column_id_by_name send json_loads project team board_id name log =
  (log ++ [BReq "GET" (request_url (project +:+ "/" +:+ team +:+ "/_apis/work/boards/"
                                     +:+ py_str board_id +:+ "/columns"))],
   snd (Startup.get_column_id_by_name send json_loads project team board_id name [])).
Proof. rewrite !get_column_id_by_name_eq. reflexivity. Qed.

Lemma get_team_area_predicate_log send json_loads project team log :
  Startup.get_team_area_predicate send json_loads project team log =
  (log ++ [BReq "GET" (request_url (project +:+ "/" +:+ team
                                     +:+ "/_apis/work/teamsettings/teamfieldvalues"))],
   snd (Startup.get_team_area_predicate send json_loads project team [])).
Proof. rewrite !get_team_area_predicate_eq. reflexivity. Qed.

Ltac boot_step := unfold mbind, BM_bind, bprint, mret, BM_ret.

(** Startup stops at the first lookup that raises; the exception leaves
    [__main__] and the loop never starts.  A failing board lookup makes one
    request and prints nothing; a failing column lookup makes the two
    requests; a failing area predicate comes after the two lines naming the
    board and the column. *)
Theorem main_stops_on_startup_failure :
  forall send json_loads envs e,
    (snd (Startup.get_board_id_by_name send json_loads AZURE_PROJ TEAM_NAME BOARD_NAME []) = inl e ->
     Startup.main send json_loads envs = ([BReq "GET" (request_url boards_path)], inl e)) /\
    (forall board_id bn,
       snd (Startup.get_board_id_by_name send json_loads AZURE_PROJ TEAM_NAME BOARD_NAME [])
         = inr (board_id, bn) ->
       snd (Startup.get_column_id_by_name send json_loads AZURE_PROJ TEAM_NAME board_id
              COLUMN_NAME []) = inl e ->
       Startup.main send json_loads envs =
         ([BReq "GET" (request_url boards_path); BReq "GET" (request_url (columns_path board_id))],
          inl e)) /\
    (forall board_id bn column_id cn,
       snd (Startup.get_board_id_by_name send json_loads AZURE_PROJ TEAM_NAME BOARD_NAME [])
         = inr (board_id, bn) ->
       snd (Startup.get_column_id_by_name send json_loads AZURE_PROJ TEAM_NAME board_id
              COLUMN_NAME []) = inr (column_id, cn) ->
       snd (Startup.get_team_area_predicate send json_loads AZURE_PROJ TEAM_NAME []) = inl e ->
       Startup.main send json_loads envs =
         ([BReq "GET" (request_url boards_path); BReq "GET" (request_url (columns_path board_id));
           BPrint "Monitoring Org='WFRD-RDE-DWC-Software', Project='OmniStack', Team='WASP'";
           BPrint ("Board='" +:+ py_str bn +:+ "' (id=" +:+ py_str board_id
                     +:+ "), Column='" +:+ py_str cn +:+ "'");
           BReq "GET" (request_url settings_path)], inl e)).
Proof.
  intros send json_loads envs e.
  unfold Startup.main, Startup.main_startup. split; [|split].
  - intros Hb. boot_step. rewrite get_board_id_by_name_log, Hb. reflexivity.
  - intros board_id bn Hb Hc. boot_step. rewrite get_board_id_by_name_log, Hb. cbv beta iota.
    rewrite get_column_id_by_name_log, Hc. reflexivity.
  - intros board_id bn column_id cn Hb Hc Ha. boot_step.
    rewrite get_board_id_by_name_log, Hb. cbv beta iota.
    rewrite get_column_id_by_name_log, Hc. cbv beta iota.
    rewrite get_team_area_predicate_log, Ha. reflexivity.
Qed.

(** When startup succeeds, [__main__] has made exactly the three GETs
    (boards, the columns of the board found, the team field values) and
    printed its three lines, the last one showing the area predicate; the
    loop then runs from an empty [seen_ids] and every WIQL query it sends is
    scoped by that same predicate. *)
Theorem main_loop_uses_startup_predicate :
  forall send json_loads envs log st,
    Startup.main send json_loads envs = (log, inr st) ->
    exists board_id bn column_id cn pred,
      snd (Startup.get_board_id_by_name send json_loads AZURE_PROJ TEAM_NAME BOARD_NAME [])
        = inr (board_id, bn) /\
      snd (Startup.get_column_id_by_name send json_loads AZURE_PROJ TEAM_NAME board_id
             COLUMN_NAME []) = inr (column_id, cn) /\
      snd (Startup.get_team_area_predicate send json_loads AZURE_PROJ TEAM_NAME []) = inr pred /\
      log = [BReq "GET" (request_url boards_path); BReq "GET" (request_url (columns_path board_id));
             BPrint "Monitoring Org='WFRD-RDE-DWC-Software', Project='OmniStack', Team='WASP'";
             BPrint ("Board='" +:+ py_str bn +:+ "' (id=" +:+ py_str board_id
                       +:+ "), Column='" +:+ py_str cn +:+ "'");
             BReq "GET" (request_url settings_path);
             BPrint ("Area predicate: " +:+ pred)] /\
      st = fst (poll_loop pred envs (mkSt ∅ [])) /\
      (forall q, In (EvQuery q) (out st) -> q = wiql_text AZURE_PROJ COLUMN_NAME pred).
Proof.
  intros send json_loads envs log st H.
  unfold Startup.main, Startup.main_startup in H. unfold mbind, BM_bind, bprint, mret, BM_ret in H.
  rewrite get_board_id_by_name_log in H.
  destruct (snd (Startup.get_board_id_by_name send json_loads AZURE_PROJ TEAM_NAME BOARD_NAME []))
    as [e|[board_id bn]] eqn:Hb; [discriminate|].
  cbv beta iota in H. rewrite get_column_id_by_name_log in H.
  destruct (snd (Startup.get_column_id_by_name send json_loads AZURE_PROJ TEAM_NAME board_id
                   COLUMN_NAME [])) as [e|[column_id cn]] eqn:Hc; [discriminate|].
  cbv beta iota in H. rewrite get_team_area_predicate_log in H.
  destruct (snd (Startup.get_team_area_predicate send json_loads AZURE_PROJ TEAM_NAME []))
    as [e|pred] eqn:Ha; [discriminate|].
  cbv beta iota in H. injection H as <- <-.
  exists board_id, bn, column_id, cn, pred.
  split; [reflexivity|]. split; [exact Hc|]. split; [reflexivity|].
  split; [reflexivity|]. split; [reflexivity|].
  intros q Hq.
  destruct (poll_loop pred envs (mkSt ∅ [])) as [st' r] eqn:E.
  destruct (poll_loop_queries _ _ _ _ _ E q Hq) as [[]|Heq]. exact Heq.
Qed.

Lemma main_loop_uses_startup_predicate_witness :
  Startup.main boot_send boot_json_loads [scn_env scn_ok] =
    (fst (Startup.main boot_send boot_json_loads [scn_env scn_ok]),
     inr (fst (poll_loop scn_pred [scn_env scn_ok] (mkSt ∅ [])))) /\
  exists board_id bn column_id cn pred,
    snd (Startup.get_board_id_by_name boot_send boot_json_loads AZURE_PROJ TEAM_NAME BOARD_NAME [])
      = inr (board_id, bn) /\
    snd (Startup.get_column_id_by_name boot_send boot_json_loads AZURE_PROJ TEAM_NAME board_id
           COLUMN_NAME []) = inr (column_id, cn) /\
    snd (Startup.get_team_area_predicate boot_send boot_json_loads AZURE_PROJ TEAM_NAME []) = inr pred /\
    fst (Startup.main boot_send boot_json_loads [scn_env scn_ok]) =
      [BReq "GET" (request_url boards_path); BReq "GET" (request_url (columns_path board_id));
       BPrint "Monitoring Org='WFRD-RDE-DWC-Software', Project='OmniStack', Team='WASP'";
       BPrint ("Board='" +:+ py_str bn +:+ "' (id=" +:+ py_str board_id
                 +:+ "), Column='" +:+ py_str cn +:+ "'");
       BReq "GET" (request_url settings_path);
       BPrint ("Area predicate: " +:+ pred)] /\
    fst (poll_loop scn_pred [scn_env scn_ok] (mkSt ∅ [])) = fst (poll_loop pred [scn_env scn_ok] (mkSt ∅ [])) /\
    (forall q, In (EvQuery q) (out (fst (poll_loop scn_pred [scn_env scn_ok] (mkSt ∅ [])))) ->
       q = wiql_text AZURE_PROJ COLUMN_NAME pred).
Proof.
  assert (H : Startup.main boot_send boot_json_loads [scn_env scn_ok] =
    (fst (Startup.main boot_send boot_json_loads [scn_env scn_ok]),
     inr (fst (poll_loop scn_pred [scn_env scn_ok] (mkSt ∅ []))))) by (vm_compute; reflexivity).
  split; [exact H|].
  exact (main_loop_uses_startup_predicate boot_send boot_json_loads [scn_env scn_ok] _ _ H).
Defined.
